(** * stuy_utils.schedule: day, bell-schedule and period resolution

    A shallow embedding of [src/stuy_utils/schedule.py] and the properties
    of its resolvers.  Python values are modelled as follows.

    - A [datetime.date] is its proleptic Gregorian ordinal
      ([date.toordinal()]), an integer between 1 and 3652059; adding a
      [timedelta] outside that range raises [OverflowError].
    - A [datetime.time] is the number of microseconds since midnight, so
      that the comparison of naive times is the comparison of integers.
    - A [dict] whose order matters (a bell schedule) is an association
      list in insertion order; the calendar [TERM_DAYS], which is only
      ever looked up by key, is a finite map over strings.
    - A call either returns a value, raises an exception, or (in the model
      only) runs out of the fuel that bounds loops and recursion. *)

From Stdlib Require Import ZArith Lia String Ascii List Bool DecimalString.
From stdpp Require Import base tactics option list strings gmap.

Local Open Scope Z_scope.

(** ** Exceptions and outcomes *)

(** The exceptions of the module ([stuy_utils.errors] and the built-in ones
    its operations can raise).  [NoScheduleAvailable] is the error kind the
    design document names for a period query without a schedule; no
    function of the module raises it. *)
Inductive exn : Type :=
| InvalidDate
| InvalidTime
| DayNotInData (iso_date : string)
| AttributeError
| StopIteration
| IndexError
| KeyError
| ValueError
| TypeError
| OverflowError
| NoScheduleAvailable.

Inductive outcome (A : Type) : Type :=
| Ok (a : A)
| Raise (e : exn)
| OutOfFuel.

Arguments Ok {A} a.
Arguments Raise {A} e.
Arguments OutOfFuel {A}.

#[global] Instance outcome_ret : MRet outcome := fun A a => Ok a.

#[global] Instance outcome_bind : MBind outcome := fun A B f m =>
  match m with
  | Ok a => f a
  | Raise e => Raise e
  | OutOfFuel => OutOfFuel
  end.

(** ** Dates and times *)

Module PyDate.

Definition MAXORDINAL : Z := 3652059.

Definition date : Type := Z.
Definition time : Type := Z.

(** [d + timedelta(days=n)] *)
Definition add_days (d : date) (n : Z) : outcome date :=
  if (0 <? d + n) && (d + n <=? MAXORDINAL) then Ok (d + n)
  else Raise OverflowError.

Definition DI400Y : Z := 146097.
Definition DI100Y : Z := 36524.
Definition DI4Y : Z := 1461.

Definition DAYS_IN_MONTH (m : Z) : Z :=
  nth (Z.to_nat m) [-1; 31; 28; 31; 30; 31; 30; 31; 31; 30; 31; 30; 31] 0.

Definition DAYS_BEFORE_MONTH (m : Z) : Z :=
  nth (Z.to_nat m) [-1; 0; 31; 59; 90; 120; 151; 181; 212; 243; 273; 304; 334] 0.

Definition b2z (b : bool) : Z := if b then 1 else 0.

(** ordinal to (year, month, day), considering 01-Jan-0001 as day 1 *)
Definition ord2ymd (n : Z) : Z * Z * Z :=
  let n := n - 1 in
  let n400 := n / DI400Y in
  let n := n mod DI400Y in
  let year := n400 * 400 + 1 in
  let n100 := n / DI100Y in
  let n := n mod DI100Y in
  let n4 := n / DI4Y in
  let n := n mod DI4Y in
  let n1 := n / 365 in
  let n := n mod 365 in
  let year := year + (n100 * 100 + n4 * 4 + n1) in
  if (n1 =? 4) || (n100 =? 4) then (year - 1, 12, 31)
  else
    let leapyear := (n1 =? 3) && (negb (n4 =? 24) || (n100 =? 3)) in
    let month := Z.shiftr (n + 50) 5 in
    let preceding := DAYS_BEFORE_MONTH month + b2z ((2 <? month) && leapyear) in
    let '(month, preceding) :=
      if n <? preceding
      then (month - 1,
            preceding - (DAYS_IN_MONTH (month - 1) + b2z ((month - 1 =? 2) && leapyear)))
      else (month, preceding) in
    (year, month, n - preceding + 1).

Definition digit (n : Z) : ascii := ascii_of_nat (48 + Z.to_nat (n mod 10)).

Definition fmt02 (n : Z) : string :=
  String (digit (n / 10)) (String (digit n) EmptyString).

Definition fmt04 (n : Z) : string :=
  String (digit (n / 1000)) (String (digit (n / 100)) (fmt02 n)).

(** [day.isoformat()], that is ["%04d-%02d-%02d" % (year, month, day)] *)
Definition isoformat (d : date) : string :=
  let '(y, m, dd) := ord2ymd d in
  fmt04 y +:+ "-" +:+ fmt02 m +:+ "-" +:+ fmt02 dd.

End PyDate.

Import PyDate.

Arguments isoformat : simpl never.
Arguments add_days : simpl never.

(** What a caller may pass where a [Union[date, datetime]] is expected:
    [None], a date, or a datetime (a date with a time of day). *)
Inductive pyday : Type :=
| PyNone
| PyDay (d : date)
| PyDateTime (d : date) (t : time).

Definition of_optional (o : option date) : pyday :=
  match o with
  | Some d => PyDay d
  | None => PyNone
  end.

(** ** The module's tables *)

(** [Info = namedtuple("Info", ("school", "cycle", "schedule", "testing", "events"))];
    the calendar stores five strings, [get_day_info] returns a boolean and
    four optional strings. *)
Record Info (A B : Type) : Type := mkInfo {
  school : A;
  cycle : B;
  schedule : B;
  testing : B;
  events : B
}.

Arguments mkInfo {A B}.
Arguments school {A B}.
Arguments cycle {A B}.
Arguments schedule {A B}.
Arguments testing {A B}.
Arguments events {A B}.

(** [Time = namedtuple("Time", ("start", "end"))] *)
Record Time : Type := mkTime {
  start : time;
  end_ : time
}.

(** A bell schedule: an insertion-ordered [dict] from period name to [Time]. *)
Definition bell_schedule : Type := list (string * Time).

Record Globals : Type := mkGlobals {
  TERM_DAYS : gmap string (Info string string);
  REGULAR_BELL_SCHEDULE : bell_schedule;
  CONFERENCE_BELL_SCHEDULE : bell_schedule;
  HOMEROOM_BELL_SCHEDULE : bell_schedule;
  PTC_BELL_SCHEDULE : bell_schedule;
  EXTENDED_HOMEROOM_BELL_SCHEDULE : bell_schedule
}.

(** ** Day resolution *)

(** The checks every resolver starts with: [isinstance(day, date)], then
    a datetime is cut down to its date. *)
Definition as_date (day : pyday) : outcome date :=
  match day with
  | PyNone => Raise InvalidDate
  | PyDay d => Ok d
  | PyDateTime d _ => Ok d
  end.

Definition get_day_info (g : Globals) (day : pyday) : outcome (Info bool (option string)) :=
  day ← as_date day;
  let iso_date := isoformat day in
  match TERM_DAYS g !! iso_date with
  | None => Raise (DayNotInData iso_date)
  | Some row =>
      Ok {| school := if (school row =? "True")%string then true else false;
            cycle := if negb (cycle row =? "None")%string then Some (cycle row) else None;
            schedule := if negb (schedule row =? "None")%string then Some (schedule row) else None;
            testing := if negb (testing row =? "None")%string then Some (testing row) else None;
            events := if negb (events row =? "None")%string then Some (events row) else None |}
  end.


(** A [while] loop whose body either goes round again with a new state or
    leaves the function with a value.  [while_loop n body s] runs the body
    at most [2 ^ n] times and ends in [Continue] only when that bound is
    reached. *)
Inductive step (St R : Type) : Type :=
| Continue (s : St)
| Return (r : R).

Arguments Continue {St R} s.
Arguments Return {St R} r.

Fixpoint while_loop {St R : Type} (n : nat) (body : St -> outcome (step St R)) (s : St)
  : outcome (step St R) :=
  match n with
  | O => body s
  | S n' =>
      r ← while_loop n' body s;
      match r with
      | Continue s' => while_loop n' body s'
      | Return v => Ok (Return v)
      end
  end.

Arguments while_loop : simpl never.

(** One turn of [while get_day_info(next_day).school is False: ...]; leaving
    the loop by its condition returns [next_day]. *)
Definition scan_body (g : Globals) (next_day : date) : outcome (step date (option date)) :=
  info ← get_day_info g (PyDay next_day);
  if negb (school info) then
    match TERM_DAYS g !! isoformat next_day with
    | None => Ok (Return None)
    | Some _ => next_day ← add_days next_day 1; Ok (Continue next_day)
    end
  else Ok (Return (Some next_day)).

(** Enough turns for every date up to [date.max]: [2 ^ 22 > 3652059]. *)
Definition scan_bound : nat := 22.

Definition get_next_school_day (g : Globals) (day : pyday) (always_same : bool)
  : outcome (option date) :=
  day ← as_date day;
  let iso_date := isoformat day in
  match TERM_DAYS g !! iso_date with
  | None => Raise (DayNotInData iso_date)
  | Some row =>
      if (school row =? "True")%string then Ok (Some day)
      else if always_same then Ok (Some day)
      else
        next_day ← add_days day 1;
        r ← while_loop scan_bound (scan_body g) next_day;
        match r with
        | Return v => Ok v
        | Continue _ => OutOfFuel
        end
  end.

(** ** Schedule resolution *)

Fixpoint get_bell_schedule_rec (depth : nat) (g : Globals) (day : pyday) (this_day : bool)
  : outcome (option bell_schedule) :=
  match depth with
  | O => OutOfFuel
  | S depth =>
      day ← as_date day;
      let iso_date := isoformat day in
      match TERM_DAYS g !! iso_date with
      | None => Raise (DayNotInData iso_date)
      | Some row =>
          if (school row =? "True")%string then
            if (schedule row =? "None")%string then Ok None
            else if (schedule row =? "Regular")%string then Ok (Some (REGULAR_BELL_SCHEDULE g))
            else if (schedule row =? "Conference")%string then Ok (Some (CONFERENCE_BELL_SCHEDULE g))
            else if (schedule row =? "Homeroom")%string then Ok (Some (HOMEROOM_BELL_SCHEDULE g))
            else if (schedule row =? "PTC")%string then Ok (Some (PTC_BELL_SCHEDULE g))
            else if (schedule row =? "Extended Homeroom")%string
                 then Ok (Some (EXTENDED_HOMEROOM_BELL_SCHEDULE g))
            else Ok None
          else if this_day then Ok None
          else
            next_day ← get_next_school_day g (PyDay day) false;
            get_bell_schedule_rec depth g (of_optional next_day) false
      end
  end.

(** The recursive call is on a day in session, so two frames are enough. *)
Definition get_bell_schedule (g : Globals) (day : pyday) (this_day : bool)
  : outcome (option bell_schedule) :=
  get_bell_schedule_rec 2 g day this_day.

(** ** Period resolution *)

(** [day.time()]: only a datetime has it. *)
Definition time_of (day : pyday) : outcome time :=
  match day with
  | PyDateTime _ t => Ok t
  | _ => Raise AttributeError
  end.

(** [schedule.items()] and [schedule.keys()]: [None] has neither. *)
Definition items (schedule : option bell_schedule) : outcome (list (string * Time)) :=
  match schedule with
  | Some d => Ok d
  | None => Raise AttributeError
  end.

Definition keys (schedule : option bell_schedule) : outcome (list string) :=
  match schedule with
  | Some d => Ok (map fst d)
  | None => Raise AttributeError
  end.

(** [schedule[key]] *)
Fixpoint getitem (d : bell_schedule) (key : string) : outcome Time :=
  match d with
  | [] => Raise KeyError
  | (k, v) :: d' => if (k =? key)%string then Ok v else getitem d' key
  end.

Definition subscript (schedule : option bell_schedule) (key : string) : outcome Time :=
  match schedule with
  | Some d => getitem d key
  | None => Raise TypeError
  end.

(** [l.index(x)] *)
Fixpoint index (l : list string) (x : string) : outcome nat :=
  match l with
  | [] => Raise ValueError
  | y :: l' => if (y =? x)%string then Ok O else i ← index l' x; Ok (S i)
  end.

(** [l[i]] for a non-negative [i] *)
Definition at_index (l : list string) (i : nat) : outcome string :=
  match l !! i with
  | Some x => Ok x
  | None => Raise IndexError
  end.

(** [sub in s] *)
Fixpoint contains (sub s : string) : bool :=
  String.prefix sub s ||
  match s with
  | EmptyString => false
  | String _ s' => contains sub s'
  end.

(** The [for] loop of [get_current_class]. *)
Fixpoint first_containing (day : time) (its : list (string * Time)) : option (string * Time) :=
  match its with
  | [] => None
  | item :: rest =>
      if (start item.2 <=? day) && (day <=? end_ item.2) then Some item
      else first_containing day rest
  end.

Definition get_current_class (g : Globals) (day : pyday) : outcome (option (string * Time)) :=
  schedule ← get_bell_schedule g day false;
  day ← time_of day;
  its ← items schedule;
  Ok (first_containing day its).

Definition get_next_class (g : Globals) (day : pyday) (skip_passing : bool)
  : outcome (option (string * Time)) :=
  schedule ← get_bell_schedule g day false;
  current_class ← get_current_class g day;
  match current_class with
  | None =>
      its ← items schedule;
      match its with
      | [] => Raise StopIteration
      | item :: _ => Ok (Some item)
      end
  | Some current =>
      ks ← keys schedule;
      i ← index ks current.1;
      if (Z.of_nat i =? Z.of_nat (length ks) - 1) then Ok None
      else
        next_class ← at_index ks (i + 1);
        if skip_passing && contains "Passing" next_class then
          next_class ← at_index ks (i + 2);
          t ← subscript schedule next_class;
          Ok (Some (next_class, t))
        else
          t ← subscript schedule next_class;
          Ok (Some (next_class, t))
  end.

Definition get_current_period (g : Globals) (time_of_period : pyday) : outcome (option string) :=
  current_class ← get_current_class g time_of_period;
  match current_class with
  | None => Ok None
  | Some current => Ok (Some current.1)
  end.

(** ** Loading the tables

    The module body opens four files and builds six tables from them.  A
    file is the list of rows [csv.reader] yields from it; an open handle
    holds the rows not read yet, and [list(csv.reader(f))] takes them all.
    The call of [update_schedule] before the block writes to a file that
    is none of the four and has no part in the tables. *)

Definition row : Type := list string.

Inductive handle : Type :=
| term_tsv
| regular_tsv
| conference_tsv
| homeroom_tsv.

Definition handles : Type := handle -> list row.

Definition handle_eqb (a b : handle) : bool :=
  match a, b with
  | term_tsv, term_tsv
  | regular_tsv, regular_tsv
  | conference_tsv, conference_tsv
  | homeroom_tsv, homeroom_tsv => true
  | _, _ => false
  end.

(** [list(csv.reader(f, delimiter="\t"))]: the rows left on [f], which is
    at its end afterwards. *)
Definition read_rows (f : handle) (fs : handles) : list row * handles :=
  (fs f, fun f' => if handle_eqb f f' then [] else fs f').

(** [d[key] = value] on an insertion-ordered dict: a key already present
    keeps its place. *)
Fixpoint setitem (d : bell_schedule) (key : string) (value : Time) : bell_schedule :=
  match d with
  | [] => [(key, value)]
  | (k, v) :: d' =>
      if (k =? key)%string then (k, value) :: d' else (k, v) :: setitem d' key value
  end.

(** [row[0]] *)
Definition first_column (r : row) : outcome string :=
  match r with
  | [] => Raise IndexError
  | k :: _ => Ok k
  end.

(** [Info] applied to the columns [row[1:]], which must be five *)
Definition Info_of (fields : list string) : outcome (Info string string) :=
  match fields with
  | [a; b; c; d; e] => Ok (mkInfo a b c d e)
  | _ => Raise TypeError
  end.

(** [Time] applied to the converted columns, which must be two *)
Definition Time_of (times : list time) : outcome Time :=
  match times with
  | [s; e] => Ok (mkTime s e)
  | _ => Raise TypeError
  end.

(** The dict comprehension of [TERM_DAYS]: key [row[0]], value the [Info]
    of [row[1:]], for each row in turn. *)
Fixpoint term_days_of (rows : list row) (acc : gmap string (Info string string))
  : outcome (gmap string (Info string string)) :=
  match rows with
  | [] => Ok acc
  | r :: rows' =>
      k ← first_column r;
      v ← Info_of (tail r);
      term_days_of rows' (<[k := v]> acc)
  end.

Section Loading.

(** [time.fromisoformat(convert_12h_to_24h(element))] *)
Variable to_time : string -> outcome time.

(** The dict comprehension of a bell schedule: key [row[0]], value the
    [Time] of the converted [row[1:]], for each row in turn. *)
Fixpoint bell_schedule_of (rows : list row) (acc : bell_schedule) : outcome bell_schedule :=
  match rows with
  | [] => Ok acc
  | r :: rows' =>
      k ← first_column r;
      times ← mapM to_time (tail r);
      v ← Time_of times;
      bell_schedule_of rows' (setitem acc k v)
  end.

(** The body of the [with open(...) as term_tsv, ...] block; [[1:]] drops
    the header row. *)
Definition load (fs : handles) : outcome Globals :=
  let '(rows, fs) := read_rows term_tsv fs in
  term_days ← term_days_of (tail rows) ∅;
  let '(rows, fs) := read_rows regular_tsv fs in
  regular ← bell_schedule_of (tail rows) [];
  let '(rows, fs) := read_rows conference_tsv fs in
  conference ← bell_schedule_of (tail rows) [];
  let '(rows, fs) := read_rows homeroom_tsv fs in
  homeroom ← bell_schedule_of (tail rows) [];
  let '(rows, fs) := read_rows homeroom_tsv fs in
  ptc ← bell_schedule_of (tail rows) [];
  let '(rows, fs) := read_rows homeroom_tsv fs in
  extended_homeroom ← bell_schedule_of (tail rows) [];
  Ok (mkGlobals term_days regular conference homeroom ptc extended_homeroom).

End Loading.

(** ** Clock strings

    A Python [str] is a string of characters with code points below 256.
    The operations of [str] and [int] that the two converters use are
    modelled as Python has them on such strings.  (The converters first
    test that their argument is a [str]; the type of the argument here
    leaves nothing else.) *)

Module PyStr.

(** [sub in s] for a one-character [sub] *)
Fixpoint has_char (c : ascii) (s : string) : bool :=
  match s with
  | EmptyString => false
  | String x s' => Ascii.eqb x c || has_char c s'
  end.

(** [s.split(sep)] for a one-character [sep]: the pieces between the
    separators, empty pieces included; never an empty list. *)
Fixpoint split (sep : ascii) (s : string) : list string :=
  match s with
  | EmptyString => [EmptyString]
  | String c s' =>
      if Ascii.eqb c sep then EmptyString :: split sep s'
      else match split sep s' with
           | piece :: pieces => String c piece :: pieces
           | [] => [String c EmptyString]
           end
  end.

(** [l[i]] for a non-negative [i] *)
Definition item (l : list string) (i : nat) : outcome string :=
  match l !! i with
  | Some x => Ok x
  | None => Raise IndexError
  end.

(** [a, b = l] *)
Definition unpack2 (l : list string) : outcome (string * string) :=
  match l with
  | [a; b] => Ok (a, b)
  | _ => Raise ValueError
  end.

(** The white space [int] strips: tab, line feed, vertical tab, form
    feed, carriage return, space, next line and no-break space. *)
Definition is_space (c : ascii) : bool :=
  let n := nat_of_ascii c in
  ((9 <=? n) && (n <=? 13) || (n =? 32) || (n =? 133) || (n =? 160))%nat.

Definition is_digit (c : ascii) : bool :=
  let n := nat_of_ascii c in ((48 <=? n) && (n <=? 57))%nat.

Definition digit_value (c : ascii) : Z := Z.of_nat (nat_of_ascii c) - 48.

Fixpoint lstrip (s : string) : string :=
  match s with
  | EmptyString => EmptyString
  | String c s' => if is_space c then lstrip s' else s
  end.

Fixpoint rstrip (s : string) : string :=
  match s with
  | EmptyString => EmptyString
  | String c s' =>
      match rstrip s' with
      | EmptyString => if is_space c then EmptyString else String c EmptyString
      | r => String c r
      end
  end.

(** The digits of a literal: one digit at least, single underscores
    between digits only.  Gives the value and the number of digits. *)
Fixpoint digits (s : string) (value : Z) (count : nat) (after_digit : bool)
  : option (Z * nat) :=
  match s with
  | EmptyString => if after_digit then Some (value, count) else None
  | String c s' =>
      if is_digit c then digits s' (value * 10 + digit_value c) (S count) true
      else if Ascii.eqb c "_" && after_digit then digits s' value count false
      else None
  end.

(** [sys.get_int_max_str_digits()] *)
Definition max_str_digits : nat := 4300.

(** [int(s)]: white space around, a sign, decimal digits; [ValueError]
    for anything else and for more than 4300 digits. *)
Definition int (s : string) : outcome Z :=
  let s := rstrip (lstrip s) in
  let '(negative, body) :=
    match s with
    | String "+" s' => (false, s')
    | String "-" s' => (true, s')
    | _ => (false, s)
    end in
  match digits body 0 0 false with
  | Some (value, count) =>
      if (max_str_digits <? count)%nat then Raise ValueError
      else Ok (if negative then - value else value)
  | None => Raise ValueError
  end.

(** [str(n)] for an integer: at most 4300 digits here, since the one use
    adds 12 to an integer that [int] gave and that is at most 12. *)
Definition str (n : Z) : string := NilZero.string_of_int (Z.to_int n).

End PyStr.

Import PyStr.

Definition convert_12h_to_24h (hours12 : string) : outcome string :=
  '(hours12time, am_pm) ←
    (if contains "AM" hours12 || contains "PM" hours12 then
       hours12time ← item (split " " hours12) 0;
       am_pm ← item (split " " hours12) 1;
       Ok (hours12time, am_pm)
     else Raise InvalidTime);
  if negb (has_char ":" hours12) then Raise InvalidTime
  else
    '(hours, minutes) ← unpack2 (split ":" hours12time);
    h ← int hours;
    if 12 <? h then Raise InvalidTime
    else
      (* Account for 12:00 AM being 0 hours *)
      let hours := if (hours =? "12")%string then "0"%string else hours in
      hours ← (if (am_pm =? "PM")%string
               then h ← int hours; Ok (str (h + 12))
               else Ok hours);
      h ← int hours;
      let hours := if h <? 10 then ("0" +:+ hours)%string else hours in
      Ok (hours +:+ ":" +:+ minutes).

Definition convert_24h_to_minutes (hours24 : string) : outcome Z :=
  if negb (has_char ":" hours24) then Raise InvalidTime
  else
    '(hours, minutes) ← unpack2 (split ":" hours24);
    h ← int hours;
    if 24 <? h then Raise InvalidTime
    else
      h ← int hours;
      m ← int minutes;
      Ok (h * 60 + m).

(** ** Conversion of a day to its key

    [convert_to_isoformat]: the membership test on [TERM_DAYS] is commented
    out in the source, so only the type check can fail. *)

Definition convert_to_isoformat (day : pyday) : outcome string :=
  day ← as_date day;
  let iso_date := isoformat day in
  Ok iso_date.

(** ** Sample tables

    A week and a half of September 2023: school on Friday the 8th, nothing
    on Saturday the 9th, Sunday the 10th missing from the calendar, school
    again from Monday the 11th; and a second weekend, the 16th and 17th,
    that is in the calendar, followed by a conference day. *)

Module Sample.

(** A time of day, in microseconds since midnight. *)
Definition at_ (h m : Z) : time := (h * 60 + m) * 60000000.

Definition day_row (in_school variant : string) : Info string string :=
  mkInfo in_school "None" variant "None" "None".

Definition term_days : gmap string (Info string string) :=
  <["2023-09-08" := day_row "True" "Regular"]>
  (<["2023-09-09" := day_row "False" "None"]>
  (<["2023-09-11" := day_row "True" "Regular"]>
  (<["2023-09-12" := day_row "True" "PTC"]>
  (<["2023-09-13" := day_row "True" "None"]>
  (<["2023-09-14" := day_row "True" "Homeroom"]>
  (<["2023-09-15" := day_row "True" "Extended Homeroom"]>
  (<["2023-09-16" := day_row "False" "None"]>
  (<["2023-09-17" := day_row "False" "None"]>
  (<["2023-09-18" := day_row "True" "Conference"]>
  (<["2023-09-19" := day_row "True" "Assembly"]> ∅)))))))))).

Definition regular : bell_schedule :=
  [("HR", mkTime (at_ 8 0) (at_ 8 20));
   ("P1", mkTime (at_ 8 25) (at_ 9 10))].

Definition conference : bell_schedule :=
  [("Period 1", mkTime (at_ 8 0) (at_ 8 40));
   ("Passing 1-2", mkTime (at_ 8 40) (at_ 8 45));
   ("Period 2", mkTime (at_ 8 45) (at_ 9 25))].

Definition homeroom : bell_schedule :=
  [("Period 1", mkTime (at_ 8 0) (at_ 8 40));
   ("Homeroom", mkTime (at_ 8 44) (at_ 8 56))].

Definition tables : Globals :=
  mkGlobals term_days regular conference homeroom [] [].

Definition fri_8 : date := 738771.
Definition sat_9 : date := 738772.
Definition sun_10 : date := 738773.
Definition mon_11 : date := 738774.
Definition tue_12 : date := 738775.
Definition wed_13 : date := 738776.
Definition sat_16 : date := 738779.
Definition sun_17 : date := 738780.
Definition mon_18 : date := 738781.
Definition tue_19 : date := 738782.

(** The conversion of clock strings, on the strings of the sample files. *)
Definition to_time (s : string) : outcome time :=
  if (s =? "8:00 AM")%string then Ok (at_ 8 0)
  else if (s =? "8:40 AM")%string then Ok (at_ 8 40)
  else if (s =? "8:44 AM")%string then Ok (at_ 8 44)
  else if (s =? "8:56 AM")%string then Ok (at_ 8 56)
  else if (s =? "1:00 PM")%string then Ok (at_ 13 0)
  else Raise InvalidTime.

Definition files : handles := fun f =>
  match f with
  | term_tsv =>
      [["Date"; "School"; "Cycle"; "Schedule"; "Testing"; "Events"];
       ["2023-09-12"; "True"; "A1"; "PTC"; "None"; "None"]]
  | regular_tsv =>
      [["Period"; "Start"; "End"];
       ["Period 1"; "8:00 AM"; "8:44 AM"]]
  | conference_tsv =>
      [["Period"; "Start"; "End"];
       ["Period 1"; "8:00 AM"; "8:40 AM"]]
  | homeroom_tsv =>
      [["Period"; "Start"; "End"];
       ["Period 1"; "8:00 AM"; "8:40 AM"];
       ["Homeroom"; "8:44 AM"; "8:56 AM"]]
  end.

End Sample.


(** ** Further sample tables *)

Module Cases.

(** A day whose schedule ends in a passing time. *)
Definition short_day : Globals :=
  mkGlobals {[ "2023-09-18"%string := Sample.day_row "True" "Regular" ]}
    (take 2 Sample.conference) [] [] [] [].

(** What the sample files load as. *)
Definition loaded : Globals :=
  mkGlobals {[ "2023-09-12"%string := mkInfo "True" "A1" "PTC" "None" "None" ]}%string
    [("Period 1"%string, mkTime (Sample.at_ 8 0) (Sample.at_ 8 44))]
    [("Period 1"%string, mkTime (Sample.at_ 8 0) (Sample.at_ 8 40))]
    [("Period 1"%string, mkTime (Sample.at_ 8 0) (Sample.at_ 8 40));
     ("Homeroom"%string, mkTime (Sample.at_ 8 44) (Sample.at_ 8 56))]
    [] [].

End Cases.

(** What a row of a bell-schedule file must be for the table to take it:
    a name and two clock strings that convert; and the entry it makes. *)
Definition bell_row (to_time : string -> outcome time) (r : row) (item : string * Time)
  : Prop :=
  exists s e, r = [item.1; s; e] /\ to_time s = Ok (start item.2) /\ to_time e = Ok (end_ item.2).

(** The rows of the three bell-schedule files that are read, with the
    tables made from them. *)
Definition bell_sources (fs : handles) (g : Globals) : list (list row * bell_schedule) :=
  [(tail (fs regular_tsv), REGULAR_BELL_SCHEDULE g);
   (tail (fs conference_tsv), CONFERENCE_BELL_SCHEDULE g);
   (tail (fs homeroom_tsv), HOMEROOM_BELL_SCHEDULE g)].

(** ** Vocabulary of the statements *)

(** Whether school is in session on a date: the [school] field of
    [get_day_info]. *)
Definition day_school (g : Globals) (d : date) : outcome bool :=
  info ← get_day_info g (PyDay d);
  Ok (school info).

(** A stored column and its decoded value: absent exactly for the string
    [None], the string itself otherwise. *)
Definition decoded (raw : string) (v : option string) : Prop :=
  (v = None <-> raw = "None"%string) /\ (raw <> "None"%string -> v = Some raw).

(** No school on any day strictly between two dates. *)
Definition no_school_between (g : Globals) (lo hi : date) : Prop :=
  forall d, lo < d < hi -> day_school g d = Ok false.

(** What the forward scan from [day] has established when it looks at a
    candidate: the candidate is a later date, and every day before it is
    a day without school. *)
Definition scanned (g : Globals) (day : date) (candidate : date) : Prop :=
  day < candidate /\ 0 < candidate <= MAXORDINAL /\ no_school_between g day candidate.

(** What [get_next_school_day] can give on a day without school when it
    is asked to search: a later school day with no school day in between;
    [DayNotInData] for the first later date that the calendar lacks, all
    days before it being days without school; or [OverflowError] when the
    days without school run up to the last date there is. *)
Definition scan_result (g : Globals) (day : date) (o : outcome (option date)) : Prop :=
  match o with
  | Ok (Some r) => day < r /\ day_school g r = Ok true /\ no_school_between g day r
  | Ok None => False
  | Raise e =>
      (exists m, day < m /\ no_school_between g day m /\
                 TERM_DAYS g !! isoformat m = None /\ e = DayNotInData (isoformat m)) \/
      (e = OverflowError /\ (0 < day -> no_school_between g day (MAXORDINAL + 1)))
  | OutOfFuel => False
  end.

(** The closed interval of a period. *)
Definition in_period (t : time) (p : Time) : Prop := start p <= t <= end_ p.

(** The first value stored under a key of an association list. *)
Fixpoint assoc {A : Type} (key : string) (l : list (string * A)) : option A :=
  match l with
  | [] => None
  | (k, v) :: l' => if (key =? k)%string then Some v else assoc key l'
  end.

(** The registry of bell schedules by variant name. *)
Definition registry (g : Globals) : list (string * bell_schedule) :=
  [("Regular"%string, REGULAR_BELL_SCHEDULE g);
   ("Conference"%string, CONFERENCE_BELL_SCHEDULE g);
   ("Homeroom"%string, HOMEROOM_BELL_SCHEDULE g);
   ("PTC"%string, PTC_BELL_SCHEDULE g);
   ("Extended Homeroom"%string, EXTENDED_HOMEROOM_BELL_SCHEDULE g)].

(** How a run of a loop that starts in a state satisfying [P] can end: in
    a state satisfying [P] when the rounds are used up, and otherwise with
    what the body gave in such a state. *)
Definition ends_from {St R : Type} (body : St -> outcome (step St R)) (P : St -> Prop)
    (o : outcome (step St R)) : Prop :=
  match o with
  | Ok (Continue s') => P s'
  | other => exists s', P s' /\ body s' = other
  end.

(** The exceptions of the day and schedule resolvers. *)
Definition day_error (e : exn) : Prop :=
  e = InvalidDate \/ (exists iso_date, e = DayNotInData iso_date) \/ e = OverflowError.

(** What the day resolvers can end in: a value the predicate accepts, or
    one of their exceptions; the fuel of the model is never used up. *)
Definition ends_with {A : Type} (P : A -> Prop) (o : outcome A) : Prop :=
  match o with
  | Ok a => P a
  | Raise e => day_error e
  | OutOfFuel => False
  end.

(** How often a character stands in a string. *)
Fixpoint count_char (c : ascii) (s : string) : nat :=
  match s with
  | EmptyString => O
  | String x s' => (if Ascii.eqb x c then 1 else 0) + count_char c s'
  end.

(** The marker of a clock string. *)
Definition marker (pm : bool) : string := if pm then "PM"%string else "AM"%string.

(** The hour of the day of a clock hour from 1 to 12. *)
Definition hour24 (h : Z) (pm : bool) : Z := h mod 12 + (if pm then 12 else 0).

(** Two decimal digits, no colon, no space, read back by [int]. *)
Definition two_digits_ok (k : nat) : bool :=
  let x := Z.of_nat k in
  negb (has_char ":" (fmt02 x)) && negb (has_char " " (fmt02 x)) &&
  match int (fmt02 x) with
  | Ok v => v =? x
  | _ => false
  end.

(** * Properties *)

(** ** Outcomes *)

Lemma bind_Ok {A B : Type} (m : outcome A) (f : A -> outcome B) (b : B) :
  m ≫= f = Ok b -> exists a, m = Ok a /\ f a = Ok b.
Proof. destruct m as [a| |]; simpl; intros H; [eauto | discriminate..]. Qed.

Lemma bind_Ok_eq {A B : Type} (a : A) (f : A -> outcome B) : Ok a ≫= f = f a.
Proof. reflexivity. Qed.

Lemma bind_Raise_eq {A B : Type} (e : exn) (f : A -> outcome B) : Raise e ≫= f = Raise e.
Proof. reflexivity. Qed.

(** Run the binds whose left side is known. *)
Ltac run_binds := rewrite ?bind_Ok_eq, ?bind_Raise_eq; cbv beta zeta.

(** ** The loop combinator *)

Section WhileLoop.

Context {St R : Type}.
Variable body : St -> outcome (step St R).

Lemma while_loop_O (s : St) : while_loop 0 body s = body s.
Proof. reflexivity. Qed.

Lemma while_loop_S (n : nat) (s : St) :
  while_loop (S n) body s =
    r ← while_loop n body s;
    match r with
    | Continue s' => while_loop n body s'
    | Return v => Ok (Return v)
    end.
Proof. reflexivity. Qed.

Lemma while_loop_invariant (P : St -> Prop) :
  (forall s s', P s -> body s = Ok (Continue s') -> P s') ->
  forall n s, P s -> ends_from body P (while_loop n body s).
Proof.
  intros Hstep. induction n as [|n IH]; intros s Hs.
  - rewrite while_loop_O. unfold ends_from.
    destruct (body s) as [[s'|v]| |] eqn:Hb; eauto.
  - rewrite while_loop_S. specialize (IH s Hs) as H1.
    destruct (while_loop n body s) as [[s1|v]| |]; simpl in *; auto.
Qed.

(** A round lowers the measure by one, so a run that uses up its
    [2 ^ n] rounds lowers it by [2 ^ n]. *)
Lemma while_loop_measure (m : St -> Z) :
  (forall s s', body s = Ok (Continue s') -> m s' + 1 <= m s) ->
  forall n s s', while_loop n body s = Ok (Continue s') ->
  m s' + 2 ^ Z.of_nat n <= m s.
Proof.
  intros Hdec. induction n as [|n IH]; intros s s' H.
  - rewrite while_loop_O in H. apply Hdec in H. simpl. lia.
  - rewrite while_loop_S in H.
    apply bind_Ok in H as ([s1|v] & H1 & H2); [|discriminate].
    apply IH in H1. apply IH in H2.
    rewrite Nat2Z.inj_succ, Z.pow_succ_r by lia. lia.
Qed.

End WhileLoop.

(** ** Day information *)

Lemma eqb_True (s : string) : (s =? "True")%string = true <-> s = "True"%string.
Proof. apply String.eqb_eq. Qed.

Lemma get_day_info_stored (g : Globals) (day : pyday) (d : date) (row : Info string string) :
  as_date day = Ok d ->
  TERM_DAYS g !! isoformat d = Some row ->
  get_day_info g day =
    Ok {| school := if (school row =? "True")%string then true else false;
          cycle := if negb (cycle row =? "None")%string then Some (cycle row) else None;
          schedule := if negb (schedule row =? "None")%string then Some (schedule row) else None;
          testing := if negb (testing row =? "None")%string then Some (testing row) else None;
          events := if negb (events row =? "None")%string then Some (events row) else None |}.
Proof. intros Hd Hrow. unfold get_day_info. rewrite Hd. simpl. rewrite Hrow. reflexivity. Qed.

Lemma get_day_info_missing (g : Globals) (day : pyday) (d : date) :
  as_date day = Ok d ->
  TERM_DAYS g !! isoformat d = None ->
  get_day_info g day = Raise (DayNotInData (isoformat d)).
Proof. intros Hd Hrow. unfold get_day_info. rewrite Hd. simpl. rewrite Hrow. reflexivity. Qed.

(** A day has information exactly when the calendar has its row. *)
Lemma get_day_info_Ok (g : Globals) (day : pyday) (info : Info bool (option string)) :
  get_day_info g day = Ok info ->
  exists d row,
    as_date day = Ok d /\ TERM_DAYS g !! isoformat d = Some row /\
    (school info = true <-> school row = "True"%string) /\
    schedule info = (if negb (schedule row =? "None")%string then Some (schedule row) else None).
Proof.
  unfold get_day_info. intros H.
  apply bind_Ok in H as (d & Hd & H). exists d.
  destruct (TERM_DAYS g !! isoformat d) as [row|] eqn:Hrow; [|discriminate].
  exists row. injection H as <-. simpl. repeat split; auto.
  - destruct (school row =? "True")%string eqn:E; [intros _; now apply eqb_True | discriminate].
  - intros E. apply eqb_True in E. now rewrite E.
Qed.

Lemma decoded_column (raw : string) :
  decoded raw (if negb (raw =? "None")%string then Some raw else None).
Proof.
  unfold decoded. destruct (raw =? "None")%string eqn:E; simpl.
  - apply String.eqb_eq in E. split; [tauto | congruence].
  - apply String.eqb_neq in E. split; [split; [discriminate | tauto] | reflexivity].
Qed.

(** C10. For a date present in the calendar, [get_day_info] decodes the
    stored strings: [school] is true exactly when the stored string is
    ["True"], and each of [cycle], [schedule], [testing] and [events] is
    absent exactly when the stored string is ["None"] and is the stored
    string unchanged otherwise. *)
Theorem get_day_info_decodes (g : Globals) (day : pyday) (d : date) (row : Info string string) :
  as_date day = Ok d ->
  TERM_DAYS g !! isoformat d = Some row ->
  exists info,
    get_day_info g day = Ok info /\
    (school info = true <-> school row = "True"%string) /\
    decoded (cycle row) (cycle info) /\
    decoded (schedule row) (schedule info) /\
    decoded (testing row) (testing info) /\
    decoded (events row) (events info).
Proof.
  intros Hd Hrow. eexists. split; [apply (get_day_info_stored g day d row Hd Hrow)|].
  simpl. split; [|repeat split; apply decoded_column].
  destruct (school row =? "True")%string eqn:E.
  - apply eqb_True in E. tauto.
  - apply String.eqb_neq in E. split; [discriminate | tauto].
Qed.

Lemma get_day_info_decodes_witness :
  as_date (PyDateTime Sample.tue_12 (Sample.at_ 8 0)) = Ok Sample.tue_12 /\
  TERM_DAYS Sample.tables !! isoformat Sample.tue_12 = Some (Sample.day_row "True" "PTC") /\
  exists info,
    get_day_info Sample.tables (PyDateTime Sample.tue_12 (Sample.at_ 8 0)) = Ok info /\
    (school info = true <-> school (Sample.day_row "True" "PTC") = "True"%string) /\
    decoded (cycle (Sample.day_row "True" "PTC")) (cycle info) /\
    decoded (schedule (Sample.day_row "True" "PTC")) (schedule info) /\
    decoded (testing (Sample.day_row "True" "PTC")) (testing info) /\
    decoded (events (Sample.day_row "True" "PTC")) (events info).
Proof.
  split; [reflexivity|]. split; [vm_compute; reflexivity|].
  apply (get_day_info_decodes Sample.tables _ Sample.tue_12); [reflexivity | vm_compute; reflexivity].
Defined.

(** Other spellings of the flag are not school days. *)
Example get_day_info_lowercase_true :
  forall (flag : string), In flag ["true"; "TRUE"; "1"; " True"]%string ->
  day_school (mkGlobals {[ "2023-09-11"%string := Sample.day_row flag "Regular" ]} [] [] [] [] [])
             Sample.mon_11 = Ok false.
Proof. intros flag [<-|[<-|[<-|[<-|[]]]]]; vm_compute; reflexivity. Qed.

(** ** The next school day *)

Lemma get_next_school_day_stored (g : Globals) (day : pyday) (d : date)
    (row : Info string string) (always_same : bool) :
  as_date day = Ok d ->
  TERM_DAYS g !! isoformat d = Some row ->
  get_next_school_day g day always_same =
    if (school row =? "True")%string then Ok (Some d)
    else if always_same then Ok (Some d)
    else
      next_day ← add_days d 1;
      r ← while_loop scan_bound (scan_body g) next_day;
      match r with
      | Return v => Ok v
      | Continue _ => OutOfFuel
      end.
Proof.
  intros Hd Hrow. unfold get_next_school_day. rewrite Hd. run_binds.
  rewrite Hrow. reflexivity.
Qed.

(** C8. On a day in session [get_next_school_day] returns the day itself
    whatever [always_same] is; on a day not in session it returns the day
    itself when [always_same] is true. *)
Theorem get_next_school_day_same (g : Globals) (day : pyday) (d : date)
    (info : Info bool (option string)) :
  as_date day = Ok d ->
  get_day_info g day = Ok info ->
  (school info = true ->
   forall always_same, get_next_school_day g day always_same = Ok (Some d)) /\
  (school info = false -> get_next_school_day g day true = Ok (Some d)).
Proof.
  intros Hd Hinfo.
  destruct (get_day_info_Ok g day info Hinfo) as (d' & row & Hd' & Hrow & Hschool & _).
  assert (d' = d) as -> by congruence.
  split.
  - intros Hs always_same. rewrite (get_next_school_day_stored g day d row _ Hd Hrow).
    apply Hschool in Hs. rewrite Hs. reflexivity.
  - intros Hs. rewrite (get_next_school_day_stored g day d row _ Hd Hrow).
    destruct (school row =? "True")%string; reflexivity.
Qed.

Lemma get_next_school_day_same_witness :
  (get_next_school_day Sample.tables (PyDay Sample.mon_11) false = Ok (Some Sample.mon_11) /\
   get_next_school_day Sample.tables (PyDay Sample.mon_11) true = Ok (Some Sample.mon_11)) /\
  get_next_school_day Sample.tables (PyDateTime Sample.sat_16 (Sample.at_ 8 0)) true
    = Ok (Some Sample.sat_16).
Proof.
  split.
  - assert (H : get_day_info Sample.tables (PyDay Sample.mon_11)
                = Ok (mkInfo true None (Some "Regular"%string) None None))
      by (vm_compute; reflexivity).
    destruct (get_next_school_day_same Sample.tables (PyDay Sample.mon_11) Sample.mon_11 _
                eq_refl H) as [Hin _].
    split; apply Hin; reflexivity.
  - assert (H : get_day_info Sample.tables (PyDateTime Sample.sat_16 (Sample.at_ 8 0))
                = Ok (mkInfo false None None None None))
      by (vm_compute; reflexivity).
    destruct (get_next_school_day_same Sample.tables
                (PyDateTime Sample.sat_16 (Sample.at_ 8 0)) Sample.sat_16 _ eq_refl H)
      as [_ Hout].
    apply Hout; reflexivity.
Defined.

(** *** One turn of the scan *)

Lemma add_days_Ok (d n d' : date) :
  add_days d n = Ok d' -> d' = d + n /\ 0 < d' <= MAXORDINAL.
Proof.
  unfold add_days. destruct ((0 <? d + n) && (d + n <=? MAXORDINAL)) eqn:E; [|discriminate].
  intros [= <-]. apply andb_true_iff in E as [E1 E2]. lia.
Qed.

Lemma add_days_Raise (d n : date) (e : exn) :
  add_days d n = Raise e -> e = OverflowError /\ (d + n <= 0 \/ MAXORDINAL < d + n).
Proof.
  unfold add_days. destruct ((0 <? d + n) && (d + n <=? MAXORDINAL)) eqn:E; [discriminate|].
  intros [= <-]. split; [reflexivity|]. apply andb_false_iff in E as [E|E]; lia.
Qed.

Lemma add_days_fuel (d n : date) : add_days d n <> OutOfFuel.
Proof. unfold add_days. destruct ((0 <? d + n) && (d + n <=? MAXORDINAL)); discriminate. Qed.

Lemma day_school_stored (g : Globals) (d : date) (row : Info string string) :
  TERM_DAYS g !! isoformat d = Some row ->
  day_school g d = Ok (if (school row =? "True")%string then true else false).
Proof.
  intros Hrow. unfold day_school.
  rewrite (get_day_info_stored g (PyDay d) d row eq_refl Hrow). reflexivity.
Qed.

Lemma day_school_missing (g : Globals) (d : date) :
  TERM_DAYS g !! isoformat d = None ->
  day_school g d = Raise (DayNotInData (isoformat d)).
Proof.
  intros Hrow. unfold day_school.
  rewrite (get_day_info_missing g (PyDay d) d eq_refl Hrow). reflexivity.
Qed.

(** The three ways a turn can go: the candidate is a school day and is
    returned; it is a day without school and the scan moves on (or falls
    off the last date); it is not in the calendar and [get_day_info]
    raises before the membership test of the loop body is reached. *)
Lemma scan_body_cases (g : Globals) (d : date) :
  (day_school g d = Ok true /\ scan_body g d = Ok (Return (Some d))) \/
  (day_school g d = Ok false /\
   scan_body g d = (next_day ← add_days d 1; Ok (Continue next_day))) \/
  (TERM_DAYS g !! isoformat d = None /\
   scan_body g d = Raise (DayNotInData (isoformat d))).
Proof.
  unfold scan_body.
  destruct (TERM_DAYS g !! isoformat d) as [row|] eqn:Hrow.
  - rewrite (day_school_stored g d row Hrow).
    rewrite (get_day_info_stored g (PyDay d) d row eq_refl Hrow). run_binds.
    cbn [school]. destruct (school row =? "True")%string; cbn [negb]; auto.
  - right. right. split; [reflexivity|].
    rewrite (get_day_info_missing g (PyDay d) d eq_refl Hrow). reflexivity.
Qed.

Lemma scan_body_Continue (g : Globals) (d d' : date) :
  scan_body g d = Ok (Continue d') ->
  day_school g d = Ok false /\ d' = d + 1 /\ 0 < d' <= MAXORDINAL.
Proof.
  destruct (scan_body_cases g d) as [[_ ->]|[[Hs ->]|[_ ->]]]; try discriminate.
  intros H. apply bind_Ok in H as (n & Hn & [= <-]).
  apply add_days_Ok in Hn. tauto.
Qed.

Lemma scan_body_Return (g : Globals) (d : date) (v : option date) :
  scan_body g d = Ok (Return v) -> v = Some d /\ day_school g d = Ok true.
Proof.
  destruct (scan_body_cases g d) as [[Hs ->]|[[_ ->]|[_ ->]]]; try discriminate.
  - intros [= <-]. auto.
  - intros H. apply bind_Ok in H as (n & _ & [=]).
Qed.

Lemma scan_body_Raise (g : Globals) (d : date) (e : exn) :
  scan_body g d = Raise e ->
  (e = DayNotInData (isoformat d) /\ TERM_DAYS g !! isoformat d = None) \/
  (e = OverflowError /\ day_school g d = Ok false /\ (d + 1 <= 0 \/ MAXORDINAL < d + 1)).
Proof.
  destruct (scan_body_cases g d) as [[_ ->]|[[Hs ->]|[Hm ->]]]; try discriminate.
  - destruct (add_days d 1) as [n|e'|] eqn:Hn; try discriminate.
    rewrite bind_Raise_eq. intros [= <-]. apply add_days_Raise in Hn. tauto.
  - intros [= <-]. auto.
Qed.

Lemma scan_body_fuel (g : Globals) (d : date) : scan_body g d <> OutOfFuel.
Proof.
  destruct (scan_body_cases g d) as [[_ ->]|[[Hs ->]|[_ ->]]]; try discriminate.
  destruct (add_days d 1) as [n|e'|] eqn:Hn; try discriminate.
  now apply add_days_fuel in Hn.
Qed.

(** *** The whole scan *)

Lemma scanned_first (g : Globals) (day next_day : date) :
  add_days day 1 = Ok next_day -> scanned g day next_day.
Proof.
  intros H. apply add_days_Ok in H as [-> H]. repeat split; try lia.
  intros d Hd. lia.
Qed.

Lemma scanned_step (g : Globals) (day s s' : date) :
  scanned g day s -> scan_body g s = Ok (Continue s') -> scanned g day s'.
Proof.
  intros (Hlt & Hrange & Hno) H.
  apply scan_body_Continue in H as (Hs & -> & Hr). repeat split; try lia.
  intros d Hd. destruct (Z.eq_dec d s) as [->|Hne]; [assumption|]. apply Hno. lia.
Qed.

Lemma scan_run (g : Globals) (day next_day : date) (n : nat) :
  add_days day 1 = Ok next_day ->
  ends_from (scan_body g) (scanned g day) (while_loop n (scan_body g) next_day).
Proof.
  intros H. apply while_loop_invariant.
  - intros s s'. apply scanned_step.
  - now apply scanned_first.
Qed.

(** The rounds are never used up: each round moves one day on, and there
    are fewer than [2 ^ 22] days. *)
Lemma scan_rounds_suffice (g : Globals) (day next_day s' : date) :
  add_days day 1 = Ok next_day ->
  while_loop scan_bound (scan_body g) next_day <> Ok (Continue s').
Proof.
  intros H Hrun.
  pose proof (scan_run g day next_day scan_bound H) as Hend.
  rewrite Hrun in Hend. destruct Hend as (_ & Hrange & _).
  apply add_days_Ok in H as [_ Hnext].
  apply (while_loop_measure (scan_body g) (fun s => - s)) in Hrun.
  - change (2 ^ Z.of_nat scan_bound) with 4194304 in Hrun.
    unfold MAXORDINAL in *. lia.
  - intros s s1 Hb. apply scan_body_Continue in Hb. lia.
Qed.

Lemma get_next_school_day_scan (g : Globals) (day : pyday) (d : date)
    (row : Info string string) :
  as_date day = Ok d ->
  TERM_DAYS g !! isoformat d = Some row ->
  school row <> "True"%string ->
  scan_result g d (get_next_school_day g day false).
Proof.
  intros Hd Hrow Hschool.
  rewrite (get_next_school_day_stored g day d row false Hd Hrow).
  apply String.eqb_neq in Hschool. rewrite Hschool.
  destruct (add_days d 1) as [next_day|e|] eqn:Hnext.
  - run_binds.
    pose proof (scan_run g d next_day scan_bound Hnext) as Hend.
    pose proof (scan_rounds_suffice g d next_day) as Hrounds.
    destruct (while_loop scan_bound (scan_body g) next_day) as [[s'|v]|e|] eqn:Hrun.
    + exfalso. now apply (Hrounds s').
    + run_binds. destruct Hend as (s & (Hlt & Hrange & Hno) & Hb).
      apply scan_body_Return in Hb as [-> Hs]. simpl. auto.
    + run_binds. destruct Hend as (s & (Hlt & Hrange & Hno) & Hb).
      apply scan_body_Raise in Hb as [[-> Hm]|(-> & Hs & Hover)]; simpl.
      * left. exists s. auto.
      * right. split; [reflexivity|]. intros _ m Hm.
        destruct (Z.eq_dec m s) as [->|Hne]; [assumption|]. apply Hno. lia.
    + destruct Hend as (s & _ & Hb). now apply scan_body_fuel in Hb.
  - run_binds. apply add_days_Raise in Hnext as [-> Hover]. simpl.
    right. split; [reflexivity|]. intros Hpos m Hm. lia.
  - now apply add_days_fuel in Hnext.
Qed.

Lemma get_next_school_day_as_date (g : Globals) (day : pyday) (d : date) (always_same : bool) :
  as_date day = Ok d ->
  get_next_school_day g day always_same = get_next_school_day g (PyDay d) always_same.
Proof.
  intros Hd. destruct (TERM_DAYS g !! isoformat d) as [row|] eqn:Hrow.
  - rewrite (get_next_school_day_stored g day d row _ Hd Hrow).
    now rewrite (get_next_school_day_stored g (PyDay d) d row _ eq_refl Hrow).
  - unfold get_next_school_day. rewrite Hd. run_binds. cbn [as_date]. run_binds.
    rewrite Hrow. reflexivity.
Qed.

(** The search never answers [None]: the [return None] of the loop body
    stands behind a call that raises for the very dates it tests for. *)
Lemma get_next_school_day_not_None (g : Globals) (day : pyday) (always_same : bool) :
  get_next_school_day g day always_same <> Ok None.
Proof.
  destruct (as_date day) as [d|e|] eqn:Hd.
  - destruct (TERM_DAYS g !! isoformat d) as [row|] eqn:Hrow.
    + destruct (school row =? "True")%string eqn:Hs.
      * rewrite (get_next_school_day_stored g day d row _ Hd Hrow), Hs. discriminate.
      * destruct always_same.
        -- rewrite (get_next_school_day_stored g day d row _ Hd Hrow), Hs. discriminate.
        -- apply String.eqb_neq in Hs.
           pose proof (get_next_school_day_scan g day d row Hd Hrow Hs) as H.
           intros E. rewrite E in H. exact H.
    + unfold get_next_school_day. rewrite Hd. run_binds. rewrite Hrow. discriminate.
  - unfold get_next_school_day. rewrite Hd. discriminate.
  - unfold get_next_school_day. rewrite Hd. discriminate.
Qed.

(** C1. Where the calendar ends on a day without school, the search does
    not answer [None]: Saturday 9 September 2023 is in the sample calendar
    as a day without school, Sunday the 10th is not in it, and
    [get_next_school_day] raises [DayNotInData] for the 10th. *)
Theorem get_next_school_day_horizon_raises :
  day_school Sample.tables Sample.sat_9 = Ok false /\
  TERM_DAYS Sample.tables !! isoformat Sample.sun_10 = None /\
  get_next_school_day Sample.tables (PyDay Sample.sat_9) false
    = Raise (DayNotInData "2023-09-10").
Proof. vm_compute. repeat split. Qed.

(** Where the calendar goes on, the search finds the next school day. *)
Example get_next_school_day_weekend :
  get_next_school_day Sample.tables (PyDay Sample.sat_16) false = Ok (Some Sample.mon_18) /\
  scan_result Sample.tables Sample.sat_16 (Ok (Some Sample.mon_18)).
Proof.
  assert (E : get_next_school_day Sample.tables (PyDay Sample.sat_16) false
              = Ok (Some Sample.mon_18)) by (vm_compute; reflexivity).
  split; [exact E|]. rewrite <- E.
  apply (get_next_school_day_scan Sample.tables (PyDay Sample.sat_16) Sample.sat_16
           (Sample.day_row "False" "None")); [reflexivity | vm_compute; reflexivity | discriminate].
Qed.

(** ** Schedule resolution *)

Lemma day_school_true (g : Globals) (d : date) :
  day_school g d = Ok true ->
  exists row, TERM_DAYS g !! isoformat d = Some row /\ school row = "True"%string.
Proof.
  intros H. destruct (TERM_DAYS g !! isoformat d) as [row|] eqn:Hrow.
  - rewrite (day_school_stored g d row Hrow) in H. exists row. split; [reflexivity|].
    destruct (school row =? "True")%string eqn:E; [now apply eqb_True | discriminate].
  - rewrite (day_school_missing g d Hrow) in H. discriminate.
Qed.

Lemma get_bell_schedule_rec_stored (depth : nat) (g : Globals) (day : pyday) (d : date)
    (row : Info string string) (this_day : bool) :
  as_date day = Ok d ->
  TERM_DAYS g !! isoformat d = Some row ->
  get_bell_schedule_rec (S depth) g day this_day =
    if (school row =? "True")%string then
      if (schedule row =? "None")%string then Ok None
      else if (schedule row =? "Regular")%string then Ok (Some (REGULAR_BELL_SCHEDULE g))
      else if (schedule row =? "Conference")%string then Ok (Some (CONFERENCE_BELL_SCHEDULE g))
      else if (schedule row =? "Homeroom")%string then Ok (Some (HOMEROOM_BELL_SCHEDULE g))
      else if (schedule row =? "PTC")%string then Ok (Some (PTC_BELL_SCHEDULE g))
      else if (schedule row =? "Extended Homeroom")%string
           then Ok (Some (EXTENDED_HOMEROOM_BELL_SCHEDULE g))
      else Ok None
    else if this_day then Ok None
    else
      next_day ← get_next_school_day g (PyDay d) false;
      get_bell_schedule_rec depth g (of_optional next_day) false.
Proof.
  intros Hd Hrow. cbn [get_bell_schedule_rec]. rewrite Hd. run_binds.
  rewrite Hrow. reflexivity.
Qed.

(** On a school day the chain of comparisons is a lookup in the registry. *)
Lemma get_bell_schedule_rec_in_session (depth : nat) (g : Globals) (day : pyday) (d : date)
    (row : Info string string) (this_day : bool) :
  as_date day = Ok d ->
  TERM_DAYS g !! isoformat d = Some row ->
  school row = "True"%string ->
  get_bell_schedule_rec (S depth) g day this_day = Ok (assoc (schedule row) (registry g)).
Proof.
  intros Hd Hrow Hs.
  rewrite (get_bell_schedule_rec_stored depth g day d row this_day Hd Hrow).
  apply eqb_True in Hs. rewrite Hs.
  destruct (schedule row =? "None")%string eqn:E.
  - apply String.eqb_eq in E. rewrite E. reflexivity.
  - unfold registry. cbn [assoc].
    destruct (schedule row =? "Regular")%string; [reflexivity|].
    destruct (schedule row =? "Conference")%string; [reflexivity|].
    destruct (schedule row =? "Homeroom")%string; [reflexivity|].
    destruct (schedule row =? "PTC")%string; [reflexivity|].
    destruct (schedule row =? "Extended Homeroom")%string; reflexivity.
Qed.

Lemma assoc_not_key {A : Type} (key : string) (l : list (string * A)) :
  ~ In key (map fst l) -> assoc key l = None.
Proof.
  induction l as [|[k v] l IH]; [reflexivity|]. cbn [map fst In assoc]. intros H.
  destruct (key =? k)%string eqn:E.
  - apply String.eqb_eq in E. subst. tauto.
  - apply IH. tauto.
Qed.

(** C7. On a day in session [get_bell_schedule] gives the table the
    registry holds under exactly the day's schedule variant, one of
    Regular, Conference, Homeroom, PTC and Extended Homeroom; for any other
    variant, and when the day has no variant, it gives [None] and raises
    nothing. *)
Theorem get_bell_schedule_in_session (g : Globals) (day : pyday)
    (info : Info bool (option string)) (this_day : bool) :
  get_day_info g day = Ok info ->
  school info = true ->
  map fst (registry g)
    = ["Regular"; "Conference"; "Homeroom"; "PTC"; "Extended Homeroom"]%string /\
  (forall name table,
     In (name, table) (registry g) -> schedule info = Some name ->
     get_bell_schedule g day this_day = Ok (Some table)) /\
  ((forall name, schedule info = Some name -> ~ In name (map fst (registry g))) ->
   get_bell_schedule g day this_day = Ok None).
Proof.
  intros Hinfo Hs.
  destruct (get_day_info_Ok g day info Hinfo) as (d & row & Hd & Hrow & Hschool & Hvariant).
  apply Hschool in Hs. unfold get_bell_schedule.
  rewrite (get_bell_schedule_rec_in_session 1 g day d row this_day Hd Hrow Hs).
  split; [reflexivity|]. split.
  - intros name table Hin Hname. rewrite Hname in Hvariant.
    destruct (schedule row =? "None")%string; [discriminate|].
    injection Hvariant as ->. unfold registry in *. cbn [In] in Hin.
    destruct Hin as [H|[H|[H|[H|[H|[]]]]]]; injection H as <- <-; reflexivity.
  - intros Hnone. destruct (schedule row =? "None")%string eqn:E.
    + apply String.eqb_eq in E. rewrite E. reflexivity.
    + f_equal. apply assoc_not_key. apply Hnone. exact Hvariant.
Qed.

Lemma get_bell_schedule_in_session_witness :
  get_bell_schedule Sample.tables (PyDay Sample.mon_18) false = Ok (Some Sample.conference) /\
  get_bell_schedule Sample.tables (PyDay Sample.tue_19) false = Ok None /\
  get_bell_schedule Sample.tables (PyDay Sample.wed_13) false = Ok None.
Proof.
  split; [|split].
  - assert (H : get_day_info Sample.tables (PyDay Sample.mon_18)
                = Ok (mkInfo true None (Some "Conference"%string) None None))
      by (vm_compute; reflexivity).
    destruct (get_bell_schedule_in_session Sample.tables (PyDay Sample.mon_18) _ false H eq_refl)
      as (_ & Hsel & _).
    apply (Hsel "Conference"%string); [right; left; reflexivity | reflexivity].
  - assert (H : get_day_info Sample.tables (PyDay Sample.tue_19)
                = Ok (mkInfo true None (Some "Assembly"%string) None None))
      by (vm_compute; reflexivity).
    destruct (get_bell_schedule_in_session Sample.tables (PyDay Sample.tue_19) _ false H eq_refl)
      as (_ & _ & Hnone).
    apply Hnone. intros name [= <-]. cbn. intros [E|[E|[E|[E|[E|[]]]]]]; discriminate.
  - assert (H : get_day_info Sample.tables (PyDay Sample.wed_13)
                = Ok (mkInfo true None None None None))
      by (vm_compute; reflexivity).
    destruct (get_bell_schedule_in_session Sample.tables (PyDay Sample.wed_13) _ false H eq_refl)
      as (_ & _ & Hnone).
    apply Hnone. intros name [=].
Defined.

(** The recursion of [get_bell_schedule] is never more than one call
    deep, and the fuel of the search is never used up. *)
Lemma get_bell_schedule_fuel (g : Globals) (day : pyday) (this_day : bool) :
  get_bell_schedule g day this_day <> OutOfFuel.
Proof.
  unfold get_bell_schedule.
  assert (Hday : day = PyNone \/ exists d, as_date day = Ok d)
    by (destruct day; eauto).
  destruct Hday as [->|[d Hd]]; [discriminate|].
  destruct (TERM_DAYS g !! isoformat d) as [row|] eqn:Hrow;
    [|cbn [get_bell_schedule_rec]; rewrite Hd; run_binds; rewrite Hrow; discriminate].
  destruct (school row =? "True")%string eqn:Hs.
  - apply eqb_True in Hs.
    rewrite (get_bell_schedule_rec_in_session 1 g day d row this_day Hd Hrow Hs). discriminate.
  - rewrite (get_bell_schedule_rec_stored 1 g day d row this_day Hd Hrow), Hs.
    destruct this_day; [discriminate|].
    apply String.eqb_neq in Hs.
    pose proof (get_next_school_day_scan g (PyDay d) d row eq_refl Hrow Hs) as H.
    destruct (get_next_school_day g (PyDay d) false) as [[next|]|e|]; try contradiction.
    + run_binds. cbn [of_optional]. destruct H as (_ & Hnext & _).
      apply day_school_true in Hnext as (row' & Hrow' & Hs').
      rewrite (get_bell_schedule_rec_in_session 0 g (PyDay next) next row' false eq_refl Hrow' Hs').
      discriminate.
    + discriminate.
Qed.




(** ** Period resolution *)

Lemma in_period_test (t : time) (p : Time) :
  (start p <=? t) && (t <=? end_ p) = true <-> in_period t p.
Proof. unfold in_period. rewrite andb_true_iff, !Z.leb_le. tauto. Qed.

Lemma first_containing_at (t : time) (its : list (string * Time)) :
  forall (i : nat) (item : string * Time),
  its !! i = Some item ->
  in_period t item.2 ->
  (forall (j : nat) (earlier : string * Time),
     (j < i)%nat -> its !! j = Some earlier -> ~ in_period t earlier.2) ->
  first_containing t its = Some item.
Proof.
  induction its as [|x its IH]; intros i item Hi Hin Hbefore; [discriminate|].
  cbn [first_containing]. destruct i as [|i].
  - injection Hi as ->. apply in_period_test in Hin. now rewrite Hin.
  - destruct ((start x.2 <=? t) && (t <=? end_ x.2)) eqn:E.
    + apply in_period_test in E. exfalso. apply (Hbefore O x); [lia | reflexivity | exact E].
    + apply (IH i item Hi Hin). intros j earlier Hj Hlook.
      apply (Hbefore (S j) earlier); [lia | exact Hlook].
Qed.

Lemma first_containing_none (t : time) (its : list (string * Time)) :
  (forall item, In item its -> ~ in_period t item.2) ->
  first_containing t its = None.
Proof.
  induction its as [|x its IH]; intros Hnone; [reflexivity|].
  cbn [first_containing]. destruct ((start x.2 <=? t) && (t <=? end_ x.2)) eqn:E.
  - apply in_period_test in E. exfalso. apply (Hnone x); [now left | exact E].
  - apply IH. intros item Hin. apply Hnone. now right.
Qed.

Lemma get_current_class_scheduled (g : Globals) (d : date) (t : time) (sched : bell_schedule) :
  get_bell_schedule g (PyDateTime d t) false = Ok (Some sched) ->
  get_current_class g (PyDateTime d t) = Ok (first_containing t sched).
Proof. intros H. unfold get_current_class. rewrite H. reflexivity. Qed.

(** C6. When the day has a schedule, [get_current_class] gives the first
    entry, in the order of the schedule, whose interval from [start] to
    [end], both ends included, holds the time of day; and [None] when no
    entry does. *)
Theorem get_current_class_first (g : Globals) (d : date) (t : time) (sched : bell_schedule) :
  get_bell_schedule g (PyDateTime d t) false = Ok (Some sched) ->
  (forall (i : nat) (item : string * Time),
     sched !! i = Some item ->
     in_period t item.2 ->
     (forall (j : nat) (earlier : string * Time),
        (j < i)%nat -> sched !! j = Some earlier -> ~ in_period t earlier.2) ->
     get_current_class g (PyDateTime d t) = Ok (Some item)) /\
  ((forall item, In item sched -> ~ in_period t item.2) ->
   get_current_class g (PyDateTime d t) = Ok None).
Proof.
  intros H. rewrite (get_current_class_scheduled g d t sched H). split.
  - intros i item Hi Hin Hbefore. f_equal. now apply (first_containing_at t sched i).
  - intros Hnone. f_equal. now apply first_containing_none.
Qed.

(** At 8:40 on the conference day, the end of Period 1 and the start of
    the passing time, the earlier entry is the current one; at 7:30 there
    is none. *)
Lemma get_current_class_first_witness :
  get_current_class Sample.tables (PyDateTime Sample.mon_18 (Sample.at_ 8 40))
    = Ok (Some ("Period 1"%string, mkTime (Sample.at_ 8 0) (Sample.at_ 8 40))) /\
  get_current_class Sample.tables (PyDateTime Sample.mon_18 (Sample.at_ 7 30)) = Ok None.
Proof.
  assert (H : forall t, get_bell_schedule Sample.tables (PyDateTime Sample.mon_18 t) false
                        = Ok (Some Sample.conference)) by (intros t; vm_compute; reflexivity).
  split.
  - destruct (get_current_class_first Sample.tables Sample.mon_18 (Sample.at_ 8 40) _ (H _))
      as [Hfirst _].
    apply (Hfirst O); [reflexivity | vm_compute; split; discriminate |].
    intros j earlier Hj. lia.
  - destruct (get_current_class_first Sample.tables Sample.mon_18 (Sample.at_ 7 30) _ (H _))
      as [_ Hnone].
    apply Hnone. intros item [<-|[<-|[<-|[]]]]; vm_compute; intros [Hs _]; now apply Hs.
Defined.

(** C2. When the day has no schedule, [get_current_class] raises
    [AttributeError], the fault of asking [None] for its items; the module
    has no error of its own for this case. *)
Theorem get_current_class_no_schedule (g : Globals) (day : pyday) :
  get_bell_schedule g day false = Ok None ->
  get_current_class g day = Raise AttributeError.
Proof.
  intros H. unfold get_current_class. rewrite H. run_binds.
  destruct day; reflexivity.
Qed.

Lemma get_current_class_no_schedule_witness :
  get_bell_schedule Sample.tables (PyDateTime Sample.tue_19 (Sample.at_ 8 10)) false = Ok None /\
  get_current_class Sample.tables (PyDateTime Sample.tue_19 (Sample.at_ 8 10))
    = Raise AttributeError.
Proof.
  assert (H : get_bell_schedule Sample.tables (PyDateTime Sample.tue_19 (Sample.at_ 8 10)) false
              = Ok None) by (vm_compute; reflexivity).
  split; [exact H|]. exact (get_current_class_no_schedule _ _ H).
Defined.

(** A school day without a variant has no schedule, and the period query
    on it ends in [AttributeError], not in [NoScheduleAvailable]. *)
Lemma get_current_class_missing_value_fault :
  get_bell_schedule Sample.tables (PyDateTime Sample.wed_13 (Sample.at_ 8 42)) false = Ok None /\
  get_current_class Sample.tables (PyDateTime Sample.wed_13 (Sample.at_ 8 42))
    = Raise AttributeError /\
  get_current_class Sample.tables (PyDateTime Sample.wed_13 (Sample.at_ 8 42))
    <> Raise NoScheduleAvailable.
Proof. vm_compute. repeat split; discriminate. Qed.

(** C9. On an empty schedule [get_next_class] finds no current period and
    then raises [StopIteration], asking the empty schedule for its first
    entry. *)
Theorem get_next_class_empty_schedule (g : Globals) (d : date) (t : time) (skip_passing : bool) :
  get_bell_schedule g (PyDateTime d t) false = Ok (Some []) ->
  get_next_class g (PyDateTime d t) skip_passing = Raise StopIteration.
Proof.
  intros H. unfold get_next_class.
  rewrite (get_current_class_scheduled g d t [] H), H. reflexivity.
Qed.

Lemma get_next_class_empty_schedule_witness :
  get_bell_schedule Sample.tables (PyDateTime Sample.tue_12 (Sample.at_ 8 42)) false
    = Ok (Some []) /\
  get_next_class Sample.tables (PyDateTime Sample.tue_12 (Sample.at_ 8 42)) true
    = Raise StopIteration.
Proof.
  assert (H : get_bell_schedule Sample.tables (PyDateTime Sample.tue_12 (Sample.at_ 8 42)) false
              = Ok (Some [])) by (vm_compute; reflexivity).
  split; [exact H|]. exact (get_next_class_empty_schedule _ _ _ true H).
Defined.

Example contains_Passing :
  contains "Passing" "Passing 1-2" = true /\
  contains "Passing" "Lunch / Passing" = true /\
  contains "Passing" "passing 1-2" = false /\
  contains "Passing" "Period 1" = false.
Proof. repeat split. Qed.

(** *** Lists of keys without repetition *)

Lemma index_app (ks1 ks2 : list string) (k : string) :
  k ∉ ks1 -> index (ks1 ++ k :: ks2) k = Ok (length ks1).
Proof.
  induction ks1 as [|y ks1 IH]; intros Hk; cbn [app index length].
  - now rewrite String.eqb_refl.
  - apply not_elem_of_cons in Hk as [Hne Hk].
    assert (E : (y =? k)%string = false) by (apply String.eqb_neq; congruence).
    rewrite E, (IH Hk). reflexivity.
Qed.

Lemma at_index_app (ks1 ks2 : list string) (j : nat) :
  at_index (ks1 ++ ks2) (length ks1 + j) = at_index ks2 j.
Proof.
  unfold at_index. rewrite lookup_app_r by lia.
  replace (length ks1 + j - length ks1)%nat with j by lia. reflexivity.
Qed.

Lemma getitem_nodup (d : bell_schedule) (k : string) (v : Time) :
  NoDup (map fst d) -> (k, v) ∈ d -> getitem d k = Ok v.
Proof.
  induction d as [|[k' v'] d IH]; intros Hnd Hin; [now apply elem_of_nil in Hin|].
  cbn [map fst] in Hnd. apply NoDup_cons in Hnd as [Hk' Hnd].
  cbn [getitem]. apply elem_of_cons in Hin as [[= -> ->]|Hin].
  - now rewrite String.eqb_refl.
  - destruct (k' =? k)%string eqn:E.
    + apply String.eqb_eq in E. subst k'. exfalso. apply Hk'.
      apply list_elem_of_In, in_map_iff. exists (k, v). split; [reflexivity|].
      now apply list_elem_of_In.
    + now apply IH.
Qed.

(** C3. When the entry after the current one is a passing time and is the
    last but one of the schedule, [get_next_class] with [skip_passing]
    gives the last entry of the schedule: the entry two places on exists,
    so nothing is out of range and the answer is not [None]. *)
Theorem get_next_class_skips_passing (g : Globals) (d : date) (t : time)
    (sched before : bell_schedule) (cur passing last : string * Time) :
  get_bell_schedule g (PyDateTime d t) false = Ok (Some sched) ->
  NoDup (map fst sched) ->
  sched = before ++ [cur; passing; last] ->
  get_current_class g (PyDateTime d t) = Ok (Some cur) ->
  contains "Passing" passing.1 = true ->
  get_next_class g (PyDateTime d t) true = Ok (Some last).
Proof.
  intros Hsched Hnd -> Hcur Hpass. unfold get_next_class.
  rewrite Hsched, Hcur. run_binds. cbn [keys]. run_binds.
  pose proof Hnd as Hkeys. rewrite map_app in Hkeys. cbn [map] in Hkeys.
  apply NoDup_app in Hkeys as (_ & Hsplit & _).
  assert (Hfresh : cur.1 ∉ map fst before).
  { intros Hin. apply (Hsplit _ Hin). now left. }
  rewrite map_app. cbn [map]. rewrite (index_app _ _ _ Hfresh). run_binds.
  rewrite length_app. cbn [length].
  destruct (Z.eqb_spec (Z.of_nat (length (map fst before)))
              (Z.of_nat (length (map fst before) + 3) - 1)) as [E|_]; [lia|].
  rewrite !at_index_app. cbn [at_index lookup list_lookup]. run_binds.
  rewrite Hpass. cbn [andb]. run_binds. cbn [subscript].
  rewrite (getitem_nodup _ last.1 last.2 Hnd).
  - run_binds. now destruct last.
  - apply elem_of_app. right. destruct last. cbn. set_solver.
Qed.

Lemma get_next_class_skips_passing_witness :
  get_next_class Sample.tables (PyDateTime Sample.mon_18 (Sample.at_ 8 10)) true
    = Ok (Some ("Period 2"%string, mkTime (Sample.at_ 8 45) (Sample.at_ 9 25))).
Proof.
  apply (get_next_class_skips_passing Sample.tables Sample.mon_18 (Sample.at_ 8 10)
           Sample.conference []
           ("Period 1"%string, mkTime (Sample.at_ 8 0) (Sample.at_ 8 40))
           ("Passing 1-2"%string, mkTime (Sample.at_ 8 40) (Sample.at_ 8 45))).
  - vm_compute. reflexivity.
  - apply (bool_decide_unpack _). vm_compute. exact I.
  - reflexivity.
  - vm_compute. reflexivity.
  - vm_compute. reflexivity.
Defined.

(** On the conference day at 8:10 the current period is Period 1, the
    entry after it is the passing time, which is the last but one, and the
    answer with [skip_passing] is Period 2, not [None]. *)
Lemma get_next_class_last_not_None :
  get_current_class Sample.tables (PyDateTime Sample.mon_18 (Sample.at_ 8 10))
    = Ok (Some ("Period 1"%string, mkTime (Sample.at_ 8 0) (Sample.at_ 8 40))) /\
  map fst Sample.conference = ["Period 1"; "Passing 1-2"; "Period 2"]%string /\
  contains "Passing" "Passing 1-2" = true /\
  get_next_class Sample.tables (PyDateTime Sample.mon_18 (Sample.at_ 8 10)) true
    = Ok (Some ("Period 2"%string, mkTime (Sample.at_ 8 45) (Sample.at_ 9 25))) /\
  get_next_class Sample.tables (PyDateTime Sample.mon_18 (Sample.at_ 8 10)) true <> Ok None.
Proof. vm_compute. repeat split; discriminate. Qed.

(** The fault out of range is met one place later, when the passing time
    is itself the last entry. *)
Example get_next_class_passing_last :
  let g := mkGlobals {[ "2023-09-18"%string := Sample.day_row "True" "Regular" ]}
             (take 2 Sample.conference) [] [] [] [] in
  get_next_class g (PyDateTime Sample.mon_18 (Sample.at_ 8 10)) true = Raise IndexError /\
  get_next_class g (PyDateTime Sample.mon_18 (Sample.at_ 8 10)) false
    = Ok (Some ("Passing 1-2"%string, mkTime (Sample.at_ 8 40) (Sample.at_ 8 45))).
Proof. vm_compute. split; reflexivity. Qed.

(** ** Loading the tables *)

(** C5. The Conference table is loaded from its own file, as the Regular
    and the Homeroom tables are: each of the three is built from the rows
    of its own file after the header, so that the Conference table is not
    tied to the Homeroom table, and whether the Regular table differs from
    the other two lies in the files alone. *)
Theorem load_sources (to_time : string -> outcome time) (fs : handles) (g : Globals) :
  load to_time fs = Ok g ->
  bell_schedule_of to_time (tail (fs regular_tsv)) [] = Ok (REGULAR_BELL_SCHEDULE g) /\
  bell_schedule_of to_time (tail (fs conference_tsv)) [] = Ok (CONFERENCE_BELL_SCHEDULE g) /\
  bell_schedule_of to_time (tail (fs homeroom_tsv)) [] = Ok (HOMEROOM_BELL_SCHEDULE g).
Proof.
  unfold load, read_rows. cbv beta iota zeta. cbn [handle_eqb]. intros H.
  apply bind_Ok in H as (term_days & _ & H).
  apply bind_Ok in H as (regular & Hregular & H).
  apply bind_Ok in H as (conference & Hconference & H).
  apply bind_Ok in H as (homeroom & Hhomeroom & H).
  apply bind_Ok in H as (ptc & _ & H).
  apply bind_Ok in H as (extended & _ & H).
  injection H as <-. cbn. auto.
Qed.

Lemma load_sources_witness :
  load Sample.to_time Sample.files = Ok Cases.loaded /\
  bell_schedule_of Sample.to_time (tail (Sample.files regular_tsv)) []
    = Ok (REGULAR_BELL_SCHEDULE Cases.loaded) /\
  bell_schedule_of Sample.to_time (tail (Sample.files conference_tsv)) []
    = Ok (CONFERENCE_BELL_SCHEDULE Cases.loaded) /\
  bell_schedule_of Sample.to_time (tail (Sample.files homeroom_tsv)) []
    = Ok (HOMEROOM_BELL_SCHEDULE Cases.loaded).
Proof.
  assert (H : load Sample.to_time Sample.files = Ok Cases.loaded)
    by (vm_compute; reflexivity).
  split; [exact H|].
  exact (load_sources Sample.to_time Sample.files Cases.loaded H).
Defined.

(** With the sample files, the Conference table and the Homeroom table
    differ, and the PTC and Extended Homeroom tables differ from the
    Homeroom table. *)
Lemma load_not_aliased :
  match load Sample.to_time Sample.files with
  | Ok g =>
      CONFERENCE_BELL_SCHEDULE g <> HOMEROOM_BELL_SCHEDULE g /\
      PTC_BELL_SCHEDULE g <> HOMEROOM_BELL_SCHEDULE g /\
      EXTENDED_HOMEROOM_BELL_SCHEDULE g <> HOMEROOM_BELL_SCHEDULE g
  | _ => False
  end.
Proof. vm_compute. repeat split; discriminate. Qed.

(** Whether the Regular table differs from the others is a matter of the
    files: with the same rows in every file the three tables that are read
    are equal. *)
Example load_same_rows :
  match load Sample.to_time (fun f => match f with
                                      | term_tsv => Sample.files term_tsv
                                      | _ => Sample.files homeroom_tsv
                                      end) with
  | Ok g =>
      REGULAR_BELL_SCHEDULE g = CONFERENCE_BELL_SCHEDULE g /\
      REGULAR_BELL_SCHEDULE g = HOMEROOM_BELL_SCHEDULE g
  | _ => False
  end.
Proof. vm_compute. split; reflexivity. Qed.

(** A day of the PTC variant therefore has the empty schedule, on which
    [get_next_class] raises. *)
Example load_then_next_class :
  match load Sample.to_time Sample.files with
  | Ok g => get_next_class g (PyDateTime Sample.tue_12 (Sample.at_ 8 10)) false
  | _ => OutOfFuel
  end = Raise StopIteration.
Proof. vm_compute. reflexivity. Qed.

(** * Further properties *)

(** ** The search for the next school day *)

(** X1. On a day without school, the search gives a later school day with
    no school day in between, or raises [DayNotInData] for the first later
    date the calendar lacks, or raises [OverflowError] past the last
    date. *)
Theorem get_next_school_day_search (g : Globals) (day : pyday) (d : date)
    (info : Info bool (option string)) :
  as_date day = Ok d ->
  get_day_info g day = Ok info ->
  school info = false ->
  scan_result g d (get_next_school_day g day false).
Proof.
  intros Hd Hinfo Hs.
  destruct (get_day_info_Ok g day info Hinfo) as (d' & row & Hd' & Hrow & Hschool & _).
  assert (d' = d) as -> by congruence.
  apply (get_next_school_day_scan g day d row Hd Hrow).
  intros E. apply Hschool in E. congruence.
Qed.

Lemma get_next_school_day_search_witness :
  scan_result Sample.tables Sample.sat_16
    (get_next_school_day Sample.tables (PyDay Sample.sat_16) false) /\
  scan_result Sample.tables Sample.sat_9
    (get_next_school_day Sample.tables (PyDateTime Sample.sat_9 (Sample.at_ 12 0)) false).
Proof.
  split.
  - apply (get_next_school_day_search Sample.tables (PyDay Sample.sat_16) Sample.sat_16
             (mkInfo false None None None None)); [reflexivity | vm_compute; reflexivity | reflexivity].
  - apply (get_next_school_day_search Sample.tables _ Sample.sat_9
             (mkInfo false None None None None)); [reflexivity | vm_compute; reflexivity | reflexivity].
Defined.

(** X2. Whatever it is given, [get_next_school_day] does not answer
    [None]. *)
Theorem get_next_school_day_never_None (g : Globals) (day : pyday) (always_same : bool) :
  get_next_school_day g day always_same <> Ok None.
Proof. apply get_next_school_day_not_None. Qed.

(** X3. [get_next_school_day] always ends: with a date, or with
    [InvalidDate], [DayNotInData] or [OverflowError]. *)
Theorem get_next_school_day_outcome (g : Globals) (day : pyday) (always_same : bool) :
  ends_with (fun r => exists next, r = Some next) (get_next_school_day g day always_same).
Proof.
  destruct (as_date day) as [d|e|] eqn:Hd.
  - destruct (TERM_DAYS g !! isoformat d) as [row|] eqn:Hrow.
    + destruct (school row =? "True")%string eqn:Hs.
      { rewrite (get_next_school_day_stored g day d row _ Hd Hrow), Hs.
        cbn [ends_with]. eauto. }
      destruct always_same.
      { rewrite (get_next_school_day_stored g day d row _ Hd Hrow), Hs.
        cbn [ends_with]. eauto. }
      apply String.eqb_neq in Hs.
      pose proof (get_next_school_day_scan g day d row Hd Hrow Hs) as H.
      destruct (get_next_school_day g day false) as [[next|]|e|];
        cbn [ends_with scan_result] in *; try contradiction; [eauto|].
      unfold day_error. destruct H as [(m & _ & _ & _ & ->)|[-> _]]; eauto.
    + unfold get_next_school_day. rewrite Hd. run_binds. rewrite Hrow.
      cbn [ends_with]. unfold day_error. eauto.
  - destruct day; try discriminate. injection Hd as <-.
    cbn. unfold day_error. auto.
  - destruct day; discriminate.
Qed.

(** ** The schedule of a day *)

Lemma assoc_value {A : Type} (key : string) (l : list (string * A)) (v : A) :
  assoc key l = Some v -> In v (map snd l).
Proof.
  induction l as [|[k x] l IH]; [discriminate|]. cbn [assoc map snd In].
  destruct (key =? k)%string; [intros [= ->]; now left | intros H; right; now apply IH].
Qed.

(** Deeper recursion changes nothing: the call of [get_bell_schedule] on
    itself is on a school day, which answers at once. *)
Lemma get_bell_schedule_rec_deep (depth : nat) (g : Globals) (day : pyday) (this_day : bool) :
  get_bell_schedule_rec (S (S depth)) g day this_day = get_bell_schedule_rec 2 g day this_day.
Proof.
  assert (Hday : day = PyNone \/ exists d, as_date day = Ok d) by (destruct day; eauto).
  destruct Hday as [->|[d Hd]]; [reflexivity|].
  destruct (TERM_DAYS g !! isoformat d) as [row|] eqn:Hrow;
    [|cbn [get_bell_schedule_rec]; rewrite Hd; run_binds; rewrite Hrow; reflexivity].
  rewrite !(get_bell_schedule_rec_stored _ g day d row this_day Hd Hrow).
  destruct (school row =? "True")%string eqn:Hs; [reflexivity|].
  destruct this_day; [reflexivity|].
  apply String.eqb_neq in Hs.
  pose proof (get_next_school_day_scan g (PyDay d) d row eq_refl Hrow Hs) as H.
  destruct (get_next_school_day g (PyDay d) false) as [[next|]|e|];
    cbn [scan_result] in H; try contradiction; [|reflexivity].
  run_binds. cbn [of_optional]. destruct H as (_ & Hnext & _).
  apply day_school_true in Hnext as (row' & Hrow' & Hs').
  now rewrite !(get_bell_schedule_rec_in_session _ g (PyDay next) next row' false
                  eq_refl Hrow' Hs').
Qed.

(** X4. [get_bell_schedule] always ends, however deep it is allowed to
    call itself: with [None], with one of the five tables of the module, or
    with [InvalidDate], [DayNotInData] or [OverflowError]. *)
Theorem get_bell_schedule_outcome (g : Globals) (day : pyday) (this_day : bool) :
  ends_with (fun r => forall s, r = Some s -> In s (map snd (registry g)))
            (get_bell_schedule g day this_day) /\
  forall depth,
    get_bell_schedule_rec (S (S depth)) g day this_day = get_bell_schedule g day this_day.
Proof.
  split; [|intros depth; apply get_bell_schedule_rec_deep].
  unfold get_bell_schedule.
  assert (Hday : day = PyNone \/ exists d, as_date day = Ok d) by (destruct day; eauto).
  destruct Hday as [->|[d Hd]]; [cbn; unfold day_error; auto|].
  destruct (TERM_DAYS g !! isoformat d) as [row|] eqn:Hrow.
  2:{ cbn [get_bell_schedule_rec]. rewrite Hd. run_binds. rewrite Hrow.
      cbn [ends_with]. unfold day_error. eauto. }
  destruct (school row =? "True")%string eqn:Hs.
  - apply eqb_True in Hs.
    rewrite (get_bell_schedule_rec_in_session 1 g day d row this_day Hd Hrow Hs).
    cbn [ends_with]. intros s. apply assoc_value.
  - rewrite (get_bell_schedule_rec_stored 1 g day d row this_day Hd Hrow), Hs.
    destruct this_day; [cbn [ends_with]; discriminate|].
    apply String.eqb_neq in Hs.
    pose proof (get_next_school_day_scan g (PyDay d) d row eq_refl Hrow Hs) as H.
    destruct (get_next_school_day g (PyDay d) false) as [[next|]|e|];
      cbn [scan_result] in H; try contradiction.
    + run_binds. cbn [of_optional]. destruct H as (_ & Hnext & _).
      apply day_school_true in Hnext as (row' & Hrow' & Hs').
      rewrite (get_bell_schedule_rec_in_session 0 g (PyDay next) next row' false
                 eq_refl Hrow' Hs').
      cbn [ends_with]. intros s. apply assoc_value.
    + run_binds. cbn [ends_with]. unfold day_error.
      destruct H as [(m & _ & _ & _ & ->)|[-> _]]; eauto.
Qed.

(** X5. A date that is not in the calendar makes every resolver raise
    [DayNotInData] with the date's ISO string, whatever the flags; only
    [convert_to_isoformat] answers, with that string. *)
Theorem unknown_date_raises (g : Globals) (day : pyday) (d : date) :
  as_date day = Ok d ->
  TERM_DAYS g !! isoformat d = None ->
  convert_to_isoformat day = Ok (isoformat d) /\
  get_day_info g day = Raise (DayNotInData (isoformat d)) /\
  (forall always_same,
     get_next_school_day g day always_same = Raise (DayNotInData (isoformat d))) /\
  (forall this_day, get_bell_schedule g day this_day = Raise (DayNotInData (isoformat d))) /\
  get_current_class g day = Raise (DayNotInData (isoformat d)) /\
  (forall skip_passing,
     get_next_class g day skip_passing = Raise (DayNotInData (isoformat d))) /\
  get_current_period g day = Raise (DayNotInData (isoformat d)).
Proof.
  intros Hd Hrow.
  assert (Hbell : forall this_day,
             get_bell_schedule g day this_day = Raise (DayNotInData (isoformat d))).
  { intros this_day. unfold get_bell_schedule. cbn [get_bell_schedule_rec].
    rewrite Hd. run_binds. now rewrite Hrow. }
  assert (Hcur : get_current_class g day = Raise (DayNotInData (isoformat d))).
  { unfold get_current_class. now rewrite Hbell. }
  split; [unfold convert_to_isoformat; now rewrite Hd|].
  split; [now apply get_day_info_missing|].
  split; [|split; [exact Hbell|split; [exact Hcur|split]]].
  - intros always_same. unfold get_next_school_day. rewrite Hd. run_binds. now rewrite Hrow.
  - intros skip_passing. unfold get_next_class. now rewrite Hbell.
  - unfold get_current_period. now rewrite Hcur.
Qed.

Lemma unknown_date_raises_witness :
  convert_to_isoformat (PyDateTime Sample.sun_10 (Sample.at_ 9 0)) = Ok "2023-09-10"%string /\
  get_day_info Sample.tables (PyDateTime Sample.sun_10 (Sample.at_ 9 0))
    = Raise (DayNotInData "2023-09-10") /\
  get_current_period Sample.tables (PyDateTime Sample.sun_10 (Sample.at_ 9 0))
    = Raise (DayNotInData "2023-09-10").
Proof.
  destruct (unknown_date_raises Sample.tables (PyDateTime Sample.sun_10 (Sample.at_ 9 0))
              Sample.sun_10 eq_refl) as (H1 & H2 & _ & _ & _ & _ & H3).
  - vm_compute. reflexivity.
  - split; [exact H1|]. split; [exact H2 | exact H3].
Defined.

(** X6. The time of day of a datetime plays no part in the resolution of
    the day: a datetime and its date get the same information, the same
    next school day and the same bell schedule. *)
Theorem time_of_day_dropped (g : Globals) (d : date) (t : time) (flag : bool) :
  convert_to_isoformat (PyDateTime d t) = convert_to_isoformat (PyDay d) /\
  get_day_info g (PyDateTime d t) = get_day_info g (PyDay d) /\
  get_next_school_day g (PyDateTime d t) flag = get_next_school_day g (PyDay d) flag /\
  get_bell_schedule g (PyDateTime d t) flag = get_bell_schedule g (PyDay d) flag.
Proof.
  split; [reflexivity|]. split; [reflexivity|]. split.
  - apply get_next_school_day_as_date. reflexivity.
  - unfold get_bell_schedule. cbn [get_bell_schedule_rec as_date]. reflexivity.
Qed.

(** ** The current and the next period *)

Lemma first_containing_Some (t : time) (its : list (string * Time)) (item : string * Time) :
  first_containing t its = Some item -> In item its /\ in_period t item.2.
Proof.
  induction its as [|x its IH]; [discriminate|]. cbn [first_containing In].
  destruct ((start x.2 <=? t) && (t <=? end_ x.2)) eqn:E.
  - intros [= <-]. apply in_period_test in E. auto.
  - intros H. apply IH in H. tauto.
Qed.

Lemma first_containing_None (t : time) (its : list (string * Time)) :
  first_containing t its = None -> forall item, In item its -> ~ in_period t item.2.
Proof.
  induction its as [|x its IH]; [intros _ item []|]. cbn [first_containing In].
  destruct ((start x.2 <=? t) && (t <=? end_ x.2)) eqn:E; [discriminate|].
  intros H item [<-|Hin].
  - intros Hp. apply in_period_test in Hp. congruence.
  - now apply IH.
Qed.

(** X7. When the day has a schedule, [get_current_period] gives [None]
    exactly when no period of the schedule holds the time of day, and a
    name it gives is the name of a period of the schedule that holds the
    time of day, the one [get_current_class] gives. *)
Theorem get_current_period_name (g : Globals) (d : date) (t : time) (sched : bell_schedule) :
  get_bell_schedule g (PyDateTime d t) false = Ok (Some sched) ->
  (get_current_period g (PyDateTime d t) = Ok None <->
   forall item, In item sched -> ~ in_period t item.2) /\
  (forall name,
     get_current_period g (PyDateTime d t) = Ok (Some name) ->
     exists period,
       In (name, period) sched /\ in_period t period /\
       get_current_class g (PyDateTime d t) = Ok (Some (name, period))).
Proof.
  intros H. unfold get_current_period.
  rewrite (get_current_class_scheduled g d t sched H). run_binds.
  destruct (first_containing t sched) as [[name period]|] eqn:E.
  - apply first_containing_Some in E as [Hin Hp]. split.
    + split; [discriminate|]. intros Hnone. exfalso. now apply (Hnone _ Hin).
    + intros name' [= <-]. exists period. auto.
  - split; [|discriminate]. split; [|reflexivity].
    intros _. now apply first_containing_None.
Qed.

Lemma get_current_period_name_witness :
  get_current_period Sample.tables (PyDateTime Sample.mon_11 (Sample.at_ 8 22)) = Ok None /\
  exists period,
    In ("HR"%string, period) Sample.regular /\ in_period (Sample.at_ 8 10) period.
Proof.
  assert (H : forall t, get_bell_schedule Sample.tables (PyDateTime Sample.mon_11 t) false
                        = Ok (Some Sample.regular)) by (intros t; vm_compute; reflexivity).
  split.
  - apply (get_current_period_name Sample.tables Sample.mon_11 _ _ (H _)).
    intros item [<-|[<-|[]]]; vm_compute; intros [H1 H2]; auto.
  - destruct (get_current_period_name Sample.tables Sample.mon_11 (Sample.at_ 8 10) _ (H _))
      as [_ Hname].
    destruct (Hname "HR"%string) as (period & Hin & Hp & _); [vm_compute; reflexivity|].
    exists period. auto.
Defined.

(** X8. When no period holds the time of day (before school, between
    periods, after school), [get_next_class] gives the first entry of the
    day's schedule, whatever [skip_passing] is. *)
Theorem get_next_class_no_current (g : Globals) (d : date) (t : time)
    (first : string * Time) (rest : bell_schedule) (skip_passing : bool) :
  get_bell_schedule g (PyDateTime d t) false = Ok (Some (first :: rest)) ->
  (forall item, In item (first :: rest) -> ~ in_period t item.2) ->
  get_next_class g (PyDateTime d t) skip_passing = Ok (Some first).
Proof.
  intros H Hnone. unfold get_next_class.
  rewrite (get_current_class_scheduled g d t _ H), H. run_binds.
  now rewrite (first_containing_none t _ Hnone).
Qed.

(** After the last period of the sample conference day the next class is
    still Period 1 of that day. *)
Lemma get_next_class_no_current_witness :
  get_next_class Sample.tables (PyDateTime Sample.mon_18 (Sample.at_ 15 0)) true
    = Ok (Some ("Period 1"%string, mkTime (Sample.at_ 8 0) (Sample.at_ 8 40))).
Proof.
  apply (get_next_class_no_current Sample.tables Sample.mon_18 (Sample.at_ 15 0) _
           (tail Sample.conference)).
  - vm_compute. reflexivity.
  - intros item [<-|[<-|[<-|[]]]]; vm_compute; intros [H1 H2]; auto.
Defined.

(** Where [get_next_class] goes from a current period: [None] after the
    last entry; otherwise the entry after it, or, when passing times are
    skipped and that entry is one, the entry after that, which must
    exist. *)
Lemma get_next_class_from (g : Globals) (d : date) (t : time)
    (sched before after : bell_schedule) (cur : string * Time) (skip_passing : bool) :
  get_bell_schedule g (PyDateTime d t) false = Ok (Some sched) ->
  NoDup (map fst sched) ->
  sched = before ++ cur :: after ->
  get_current_class g (PyDateTime d t) = Ok (Some cur) ->
  get_next_class g (PyDateTime d t) skip_passing =
    match after with
    | [] => Ok None
    | following :: after' =>
        if skip_passing && contains "Passing" following.1 then
          match after' with
          | [] => Raise IndexError
          | second :: _ => Ok (Some second)
          end
        else Ok (Some following)
    end.
Proof.
  intros Hsched Hnd -> Hcur. unfold get_next_class.
  rewrite Hsched, Hcur. run_binds. cbn [keys]. run_binds.
  pose proof Hnd as Hkeys. rewrite map_app in Hkeys. cbn [map] in Hkeys.
  apply NoDup_app in Hkeys as (_ & Hsplit & _).
  assert (Hfresh : cur.1 ∉ map fst before).
  { intros Hin. apply (Hsplit _ Hin). now left. }
  rewrite map_app. cbn [map]. rewrite (index_app _ _ _ Hfresh). run_binds.
  match goal with
  | |- context [Z.eqb ?a ?b] => destruct (Z.eqb_spec a b) as [E|E]
  end; rewrite length_app in E; destruct after as [|following after'];
    cbn [map length] in E; try lia; [reflexivity|].
  rewrite !at_index_app. unfold at_index. cbn [map lookup list_lookup]. run_binds.
  destruct (skip_passing && contains "Passing" following.1).
  - destruct after' as [|second after'']; cbn [map lookup list_lookup]; [reflexivity|].
    run_binds. cbn [subscript].
    rewrite (getitem_nodup _ second.1 second.2 Hnd).
    + run_binds. now destruct second.
    + apply elem_of_app. right. destruct second.
      apply elem_of_cons. right. apply elem_of_cons. right. now left.
  - cbn [subscript]. rewrite (getitem_nodup _ following.1 following.2 Hnd).
    + run_binds. now destruct following.
    + apply elem_of_app. right. destruct following.
      apply elem_of_cons. right. now left.
Qed.

(** X9. From a current period, when the names of the schedule are all
    different: [get_next_class] gives [None] after the last entry;
    otherwise it gives the entry after the current one, unless passing
    times are skipped and that entry's name holds "Passing", in which case
    it gives the entry after that, whatever its name, and raises
    [IndexError] when there is none. *)
Theorem get_next_class_from_current (g : Globals) (d : date) (t : time)
    (sched before after : bell_schedule) (cur : string * Time) (skip_passing : bool) :
  get_bell_schedule g (PyDateTime d t) false = Ok (Some sched) ->
  NoDup (map fst sched) ->
  sched = before ++ cur :: after ->
  get_current_class g (PyDateTime d t) = Ok (Some cur) ->
  get_next_class g (PyDateTime d t) skip_passing =
    match after with
    | [] => Ok None
    | following :: after' =>
        if skip_passing && contains "Passing" following.1 then
          match after' with
          | [] => Raise IndexError
          | second :: _ => Ok (Some second)
          end
        else Ok (Some following)
    end.
Proof. apply get_next_class_from. Qed.

Lemma get_next_class_from_current_witness :
  get_next_class Sample.tables (PyDateTime Sample.mon_18 (Sample.at_ 9 0)) true = Ok None /\
  get_next_class Sample.tables (PyDateTime Sample.mon_18 (Sample.at_ 8 10)) false
    = Ok (Some ("Passing 1-2"%string, mkTime (Sample.at_ 8 40) (Sample.at_ 8 45))) /\
  get_next_class Cases.short_day (PyDateTime Sample.mon_18 (Sample.at_ 8 10)) true
    = Raise IndexError.
Proof.
  split; [|split].
  - apply (get_next_class_from_current Sample.tables Sample.mon_18 (Sample.at_ 9 0)
             Sample.conference (take 2 Sample.conference) []
             ("Period 2"%string, mkTime (Sample.at_ 8 45) (Sample.at_ 9 25)) true).
    + vm_compute. reflexivity.
    + apply (bool_decide_unpack _). vm_compute. exact I.
    + reflexivity.
    + vm_compute. reflexivity.
  - apply (get_next_class_from_current Sample.tables Sample.mon_18 (Sample.at_ 8 10)
             Sample.conference [] (tail Sample.conference)
             ("Period 1"%string, mkTime (Sample.at_ 8 0) (Sample.at_ 8 40)) false).
    + vm_compute. reflexivity.
    + apply (bool_decide_unpack _). vm_compute. exact I.
    + reflexivity.
    + vm_compute. reflexivity.
  - apply (get_next_class_from_current Cases.short_day Sample.mon_18 (Sample.at_ 8 10)
             (take 2 Sample.conference) []
             [("Passing 1-2"%string, mkTime (Sample.at_ 8 40) (Sample.at_ 8 45))]
             ("Period 1"%string, mkTime (Sample.at_ 8 0) (Sample.at_ 8 40)) true).
    + vm_compute. reflexivity.
    + apply (bool_decide_unpack _). vm_compute. exact I.
    + reflexivity.
    + vm_compute. reflexivity.
Defined.

(** ** What a successful load has read *)

Lemma load_Ok (to_time : string -> outcome time) (fs : handles) (g : Globals) :
  load to_time fs = Ok g ->
  term_days_of (tail (fs term_tsv)) ∅ = Ok (TERM_DAYS g) /\
  bell_schedule_of to_time (tail (fs regular_tsv)) [] = Ok (REGULAR_BELL_SCHEDULE g) /\
  bell_schedule_of to_time (tail (fs conference_tsv)) [] = Ok (CONFERENCE_BELL_SCHEDULE g) /\
  bell_schedule_of to_time (tail (fs homeroom_tsv)) [] = Ok (HOMEROOM_BELL_SCHEDULE g) /\
  PTC_BELL_SCHEDULE g = [] /\
  EXTENDED_HOMEROOM_BELL_SCHEDULE g = [].
Proof.
  unfold load, read_rows. cbv beta iota zeta. cbn [handle_eqb]. intros H.
  apply bind_Ok in H as (term_days & Hterm & H).
  apply bind_Ok in H as (regular & Hregular & H).
  apply bind_Ok in H as (conference & Hconference & H).
  apply bind_Ok in H as (homeroom & Hhomeroom & H).
  apply bind_Ok in H as (ptc & Hptc & H).
  apply bind_Ok in H as (extended & Hextended & H).
  injection H as <-. cbn in Hptc, Hextended.
  injection Hptc as <-. injection Hextended as <-. cbn. auto 6.
Qed.

Lemma bell_sources_Ok (to_time : string -> outcome time) (fs : handles) (g : Globals)
    (rows : list row) (table : bell_schedule) :
  load to_time fs = Ok g ->
  In (rows, table) (bell_sources fs g) ->
  bell_schedule_of to_time rows [] = Ok table.
Proof.
  intros H Hin. apply load_Ok in H as (_ & Hr & Hc & Hh & _).
  destruct Hin as [E|[E|[E|[]]]]; injection E as <- <-; assumption.
Qed.

(** *** Assignment to a key *)

Lemma elem_of_setitem_keys (d : bell_schedule) (k : string) (v : Time) (x : string) :
  x ∈ map fst (setitem d k v) <-> x ∈ map fst d \/ x = k.
Proof.
  induction d as [|[k' v'] d IH]; cbn [setitem map fst].
  - rewrite list_elem_of_singleton. split; [auto|]. intros [H|H]; [|assumption].
    now apply elem_of_nil in H.
  - destruct (k' =? k)%string eqn:E; cbn [map fst].
    + apply String.eqb_eq in E. subst k'. rewrite elem_of_cons. tauto.
    + rewrite !elem_of_cons, IH. tauto.
Qed.

Lemma setitem_NoDup (d : bell_schedule) (k : string) (v : Time) :
  NoDup (map fst d) -> NoDup (map fst (setitem d k v)).
Proof.
  induction d as [|[k' v'] d IH]; cbn [setitem map fst]; intros Hnd.
  - apply NoDup_singleton.
  - apply NoDup_cons in Hnd as [Hk' Hnd].
    destruct (k' =? k)%string eqn:E; cbn [map fst]; apply NoDup_cons.
    + auto.
    + apply String.eqb_neq in E. split; [|now apply IH].
      rewrite elem_of_setitem_keys. intros [H|H]; [tauto | congruence].
Qed.

Lemma setitem_fresh (d : bell_schedule) (k : string) (v : Time) :
  k ∉ map fst d -> setitem d k v = d ++ [(k, v)].
Proof.
  induction d as [|[k' v'] d IH]; cbn [setitem map fst app]; intros Hk; [reflexivity|].
  apply not_elem_of_cons in Hk as [Hne Hk].
  assert (E : (k' =? k)%string = false) by (apply String.eqb_neq; congruence).
  rewrite E. f_equal. now apply IH.
Qed.

(** *** The rows of a bell schedule *)

Lemma mapM_Ok {A B : Type} (f : A -> outcome B) (l : list A) (l' : list B) :
  mapM f l = Ok l' -> Forall2 (fun x y => f x = Ok y) l l'.
Proof.
  revert l'. induction l as [|x l IH]; intros l' H; cbn [mapM] in H.
  - injection H as <-. constructor.
  - apply bind_Ok in H as (y & Hy & H). apply bind_Ok in H as (k & Hk & H).
    injection H as <-. constructor; auto.
Qed.

Lemma bell_schedule_of_cons (to_time : string -> outcome time) (r : row) (rows : list row)
    (acc d : bell_schedule) :
  bell_schedule_of to_time (r :: rows) acc = Ok d ->
  exists item,
    bell_row to_time r item /\
    bell_schedule_of to_time rows (setitem acc item.1 item.2) = Ok d.
Proof.
  cbn [bell_schedule_of]. intros H.
  apply bind_Ok in H as (k & Hk & H). apply bind_Ok in H as (times & Htimes & H).
  apply bind_Ok in H as (v & Hv & H). exists (k, v). split; [|exact H].
  destruct r as [|k' cols]; [discriminate|]. injection Hk as ->.
  cbn [tail] in Htimes. apply mapM_Ok in Htimes.
  destruct times as [|s [|e [|? ?]]]; try discriminate. injection Hv as <-.
  inversion Htimes as [|cs ? cols' ? Hs Hrest]; subst.
  inversion Hrest as [|ce ? cols'' ? He Hnil]; subst.
  inversion Hnil; subst. exists cs, ce. auto.
Qed.

Lemma bell_schedule_of_NoDup (to_time : string -> outcome time) (rows : list row) :
  forall acc d,
  bell_schedule_of to_time rows acc = Ok d ->
  NoDup (map fst acc) -> NoDup (map fst d).
Proof.
  induction rows as [|r rows IH]; intros acc d H Hnd.
  - injection H as <-. exact Hnd.
  - apply bell_schedule_of_cons in H as (item & _ & H).
    apply (IH _ _ H). now apply setitem_NoDup.
Qed.

Lemma bell_schedule_of_shapes (to_time : string -> outcome time) (rows : list row) :
  forall acc d,
  bell_schedule_of to_time rows acc = Ok d ->
  Forall (fun r => exists item, bell_row to_time r item) rows.
Proof.
  induction rows as [|r rows IH]; intros acc d H; [constructor|].
  apply bell_schedule_of_cons in H as (item & Hrow & H).
  constructor; [eauto | now apply (IH _ _ H)].
Qed.

Lemma bell_schedule_of_order (to_time : string -> outcome time) (rows : list row) :
  forall acc d,
  bell_schedule_of to_time rows acc = Ok d ->
  NoDup (map fst acc ++ map (hd EmptyString) rows) ->
  exists d', d = acc ++ d' /\ Forall2 (bell_row to_time) rows d'.
Proof.
  induction rows as [|r rows IH]; intros acc d H Hnd.
  - injection H as <-. exists []. rewrite app_nil_r. split; [reflexivity | constructor].
  - apply bell_schedule_of_cons in H as ([k v] & Hrow & H). cbn [fst snd] in H.
    pose proof Hrow as (s & e & -> & _). cbn [map hd fst] in Hnd.
    assert (Hk : k ∉ map fst acc).
    { apply NoDup_app in Hnd as (_ & Hsplit & _). intros Hin.
      apply (Hsplit _ Hin). now left. }
    rewrite (setitem_fresh _ _ _ Hk) in H.
    destruct (IH _ _ H) as (d' & -> & Hrows).
    + rewrite map_app. cbn [map fst]. now rewrite <- app_assoc.
    + exists ((k, v) :: d'). rewrite <- app_assoc. split; [reflexivity|].
      constructor; assumption.
Qed.

(** X10. In every table a successful load builds, the names of the
    periods are all different. *)
Theorem load_unique_names (to_time : string -> outcome time) (fs : handles) (g : Globals) :
  load to_time fs = Ok g ->
  forall name table, In (name, table) (registry g) -> NoDup (map fst table).
Proof.
  intros H name table Hin.
  apply load_Ok in H as (_ & Hr & Hc & Hh & Hp & He).
  assert (Hrows : forall rows d, bell_schedule_of to_time rows [] = Ok d -> NoDup (map fst d)).
  { intros rows d Hd. apply (bell_schedule_of_NoDup to_time rows [] d Hd). constructor. }
  destruct Hin as [E|[E|[E|[E|[E|[]]]]]]; injection E as <- <-; eauto.
  - rewrite Hp. constructor.
  - rewrite He. constructor.
Qed.

Lemma load_unique_names_witness :
  match load Sample.to_time Sample.files with
  | Ok g => NoDup (map fst (HOMEROOM_BELL_SCHEDULE g))
  | _ => False
  end.
Proof.
  destruct (load Sample.to_time Sample.files) as [g|e|] eqn:E.
  - apply (load_unique_names Sample.to_time Sample.files g E "Homeroom"%string).
    right. right. left. reflexivity.
  - vm_compute in E. discriminate.
  - vm_compute in E. discriminate.
Defined.

(** X11. A load succeeds only on well-shaped files: after the header,
    every row of the calendar has six columns, and every row of the three
    bell-schedule files that are read is a name and two clock strings that
    convert. *)
Theorem load_row_shapes (to_time : string -> outcome time) (fs : handles) (g : Globals) :
  load to_time fs = Ok g ->
  Forall (fun r => length r = 6%nat) (tail (fs term_tsv)) /\
  forall rows table,
    In (rows, table) (bell_sources fs g) ->
    Forall (fun r => exists item, bell_row to_time r item) rows.
Proof.
  intros H. split.
  - apply load_Ok in H as (Hterm & _).
    revert Hterm. generalize (∅ : gmap string (Info string string)).
    generalize (TERM_DAYS g). induction (tail (fs term_tsv)) as [|r rows IH];
      intros m acc Hterm; [constructor|].
    cbn [term_days_of] in Hterm.
    apply bind_Ok in Hterm as (k & Hk & Hterm). apply bind_Ok in Hterm as (v & Hv & Hterm).
    constructor; [|now apply (IH _ _ Hterm)].
    destruct r as [|k' [|a [|b [|c [|e [|f [|? ?]]]]]]]; try discriminate. reflexivity.
  - intros rows table Hin.
    apply (bell_schedule_of_shapes to_time rows [] table).
    now apply (bell_sources_Ok to_time fs g).
Qed.

Lemma load_row_shapes_witness :
  Forall (fun r => length r = 6%nat) (tail (Sample.files term_tsv)).
Proof.
  destruct (load Sample.to_time Sample.files) as [g|e|] eqn:E.
  - apply (load_row_shapes Sample.to_time Sample.files g E).
  - vm_compute in E. discriminate.
  - vm_compute in E. discriminate.
Defined.

(** X12. When the names in a bell-schedule file are all different, the
    table made from it is the rows of the file after the header, one entry
    for each row, in the order of the file. *)
Theorem load_file_order (to_time : string -> outcome time) (fs : handles) (g : Globals) :
  load to_time fs = Ok g ->
  forall rows table,
    In (rows, table) (bell_sources fs g) ->
    NoDup (map (hd EmptyString) rows) ->
    Forall2 (bell_row to_time) rows table.
Proof.
  intros H rows table Hin Hnd.
  pose proof (bell_sources_Ok to_time fs g rows table H Hin) as Hrows.
  destruct (bell_schedule_of_order to_time rows [] table Hrows Hnd) as (d' & -> & Hd').
  exact Hd'.
Qed.

Lemma load_file_order_witness :
  match load Sample.to_time Sample.files with
  | Ok g => Forall2 (bell_row Sample.to_time) (tail (Sample.files homeroom_tsv))
              (HOMEROOM_BELL_SCHEDULE g)
  | _ => False
  end.
Proof.
  destruct (load Sample.to_time Sample.files) as [g|e|] eqn:E.
  - apply (load_file_order Sample.to_time Sample.files g E).
    + right. right. left. reflexivity.
    + apply (bool_decide_unpack _). vm_compute. exact I.
  - vm_compute in E. discriminate.
  - vm_compute in E. discriminate.
Defined.

(** *** The rows of the calendar *)

Lemma term_days_of_cons (r : row) (rows : list row)
    (acc m : gmap string (Info string string)) :
  term_days_of (r :: rows) acc = Ok m ->
  exists k info,
    r = [k; school info; cycle info; schedule info; testing info; events info] /\
    term_days_of rows (<[k := info]> acc) = Ok m.
Proof.
  cbn [term_days_of]. intros H.
  apply bind_Ok in H as (k & Hk & H). apply bind_Ok in H as (v & Hv & H).
  exists k, v. split; [|exact H].
  destruct r as [|k' [|a [|b [|c [|e [|f [|? ?]]]]]]]; try discriminate.
  injection Hk as ->. injection Hv as <-. reflexivity.
Qed.

Lemma term_days_of_lookup (rows : list row) :
  forall acc m k info,
  term_days_of rows acc = Ok m ->
  m !! k = Some info ->
  acc !! k = Some info \/
  In [k; school info; cycle info; schedule info; testing info; events info] rows.
Proof.
  induction rows as [|r rows IH]; intros acc m k info H Hlook.
  - injection H as <-. auto.
  - apply term_days_of_cons in H as (k' & info' & -> & H).
    destruct (IH _ _ _ _ H Hlook) as [Hacc|Hin]; [|right; now right].
    destruct (decide (k' = k)) as [->|Hne].
    + rewrite lookup_insert_eq in Hacc. injection Hacc as ->. right. now left.
    + rewrite lookup_insert_ne in Hacc by assumption. auto.
Qed.

Lemma term_days_of_other (rows : list row) :
  forall acc m k,
  term_days_of rows acc = Ok m ->
  (forall r, In r rows -> head r <> Some k) ->
  m !! k = acc !! k.
Proof.
  induction rows as [|r rows IH]; intros acc m k H Hother.
  - now injection H as <-.
  - apply term_days_of_cons in H as (k' & info' & -> & H).
    rewrite (IH _ _ k H) by (intros r Hr; apply Hother; now right).
    apply lookup_insert_ne. intros ->. apply (Hother _ (or_introl eq_refl)). reflexivity.
Qed.

Lemma term_days_of_app (rows1 rows2 : list row) :
  forall acc m,
  term_days_of (rows1 ++ rows2) acc = Ok m ->
  exists m1, term_days_of rows1 acc = Ok m1 /\ term_days_of rows2 m1 = Ok m.
Proof.
  induction rows1 as [|r rows1 IH]; intros acc m H; [eauto|].
  cbn [app] in H. pose proof H as H'.
  apply term_days_of_cons in H' as (k & info & Hr & Hrest).
  destruct (IH _ _ Hrest) as (m1 & H1 & H2). exists m1. split; [|exact H2].
  cbn [term_days_of]. rewrite Hr. cbn [first_column tail Info_of]. run_binds.
  now destruct info.
Qed.

(** X13. After a successful load the calendar holds what the file holds:
    each entry comes from a row of the file after the header, and of the
    rows for one date the last one is the entry. *)
Theorem load_calendar (to_time : string -> outcome time) (fs : handles) (g : Globals) :
  load to_time fs = Ok g ->
  (forall k info,
     TERM_DAYS g !! k = Some info ->
     In [k; school info; cycle info; schedule info; testing info; events info]
        (tail (fs term_tsv))) /\
  (forall rows1 rows2 k a b c e f,
     tail (fs term_tsv) = rows1 ++ [k; a; b; c; e; f] :: rows2 ->
     (forall r, In r rows2 -> head r <> Some k) ->
     TERM_DAYS g !! k = Some (mkInfo a b c e f)).
Proof.
  intros H. apply load_Ok in H as (Hterm & _). split.
  - intros k info Hlook.
    destruct (term_days_of_lookup _ _ _ _ _ Hterm Hlook) as [Hempty|Hin]; [|exact Hin].
    rewrite lookup_empty in Hempty. discriminate.
  - intros rows1 rows2 k a b c e f Hrows Hlast. rewrite Hrows in Hterm.
    apply term_days_of_app in Hterm as (m1 & _ & Hterm).
    apply term_days_of_cons in Hterm as (k' & info' & Hr & Hterm).
    rewrite (term_days_of_other _ _ _ k Hterm Hlast).
    injection Hr as <- -> -> -> -> ->. rewrite lookup_insert_eq. now destruct info'.
Qed.

Lemma load_calendar_witness :
  match load Sample.to_time Sample.files with
  | Ok g => TERM_DAYS g !! "2023-09-12"%string = Some (mkInfo "True" "A1" "PTC" "None" "None")%string
  | _ => False
  end.
Proof.
  destruct (load Sample.to_time Sample.files) as [g|e|] eqn:E.
  - destruct (load_calendar Sample.to_time Sample.files g E) as [_ Hlast].
    apply (Hlast [] []); [reflexivity | intros r []].
  - vm_compute in E. discriminate.
  - vm_compute in E. discriminate.
Defined.

(** ** Clock strings *)

(** *** Pieces of a string *)

Lemma append_cons (x : ascii) (s1 s2 : string) :
  (String x s1 +:+ s2)%string = String x (s1 +:+ s2).
Proof. reflexivity. Qed.

Lemma append_nil (s : string) : (EmptyString +:+ s)%string = s.
Proof. reflexivity. Qed.

Lemma has_char_app (c : ascii) (s1 s2 : string) :
  has_char c (s1 +:+ s2) = has_char c s1 || has_char c s2.
Proof.
  induction s1 as [|x s1 IH]; [reflexivity|].
  rewrite append_cons. cbn [has_char]. rewrite IH. now rewrite orb_assoc.
Qed.

Lemma split_no_sep (c : ascii) (s : string) :
  has_char c s = false -> split c s = [s].
Proof.
  induction s as [|x s IH]; [reflexivity|]. cbn [has_char split]. intros H.
  apply orb_false_iff in H as [Hx Hs]. rewrite Hx, (IH Hs). reflexivity.
Qed.

Lemma split_app (c : ascii) (s1 s2 : string) :
  has_char c s1 = false -> split c (s1 +:+ String c s2) = s1 :: split c s2.
Proof.
  induction s1 as [|x s1 IH]; cbn [has_char]; intros H.
  - rewrite append_nil. cbn [split]. now rewrite Ascii.eqb_refl.
  - apply orb_false_iff in H as [Hx Hs]. rewrite append_cons. cbn [split].
    rewrite Hx, (IH Hs). reflexivity.
Qed.

Lemma split_has_char (c : ascii) (s : string) :
  has_char c s = true -> exists a b rest, split c s = a :: b :: rest.
Proof.
  induction s as [|x s IH]; [discriminate|]. cbn [has_char split]. intros H.
  destruct (Ascii.eqb x c).
  - destruct s as [|y s]; [eauto|]. cbn [split].
    destruct (Ascii.eqb y c); [eauto|]. destruct (split c s); eauto.
  - destruct (IH H) as (a & b & rest & ->). eauto.
Qed.

Lemma contains_app_r (sub s1 s2 : string) :
  contains sub s2 = true -> contains sub (s1 +:+ s2) = true.
Proof.
  intros H. induction s1 as [|x s1 IH]; [exact H|].
  rewrite append_cons. cbn [contains]. rewrite IH. apply orb_true_r.
Qed.

(** *** The parts of a clock string *)

(** A clock string of the form hours, colon, minutes, space, marker is
    taken apart as written; what follows depends on the hours alone and
    the minutes are copied. *)
Lemma convert_12h_to_24h_parts (hs mm ap : string) :
  has_char " " hs = false -> has_char ":" hs = false ->
  has_char " " mm = false -> has_char ":" mm = false ->
  ap = "AM"%string \/ ap = "PM"%string ->
  convert_12h_to_24h (hs +:+ ":" +:+ mm +:+ " " +:+ ap) =
    h ← int hs;
    if 12 <? h then Raise InvalidTime
    else
      let hours := if (hs =? "12")%string then "0"%string else hs in
      hours ← (if (ap =? "PM")%string
               then h ← int hours; Ok (str (h + 12))
               else Ok hours);
      h ← int hours;
      let hours := if h <? 10 then ("0" +:+ hours)%string else hours in
      Ok (hours +:+ ":" +:+ mm).
Proof.
  intros Hhs Hhc Hms Hmc Hap. unfold convert_12h_to_24h.
  assert (Hsplit : split " " (hs +:+ ":" +:+ mm +:+ " " +:+ ap) = [hs +:+ ":" +:+ mm; ap]).
  { change (hs +:+ ":" +:+ mm +:+ " " +:+ ap)
      with (hs +:+ String ":" (mm +:+ String " " ap)).
    replace (hs +:+ String ":" (mm +:+ String " " ap))
      with ((hs +:+ String ":" mm) +:+ String " " ap).
    - rewrite split_app.
      + rewrite split_no_sep; [reflexivity|]. destruct Hap as [->| ->]; reflexivity.
      + rewrite has_char_app. cbn [has_char]. now rewrite Hhs, Hms.
    - clear. induction hs as [|x hs IH]; [reflexivity|].
      rewrite !append_cons. now rewrite IH. }
  assert (Hmark : contains "AM" (hs +:+ ":" +:+ mm +:+ " " +:+ ap)
                  || contains "PM" (hs +:+ ":" +:+ mm +:+ " " +:+ ap) = true).
  { apply orb_true_iff. destruct Hap as [->| ->]; [left|right];
      change (hs +:+ ":" +:+ mm +:+ " " +:+ ?x)
        with (hs +:+ (":" +:+ (mm +:+ (" " +:+ x))));
      repeat apply contains_app_r; reflexivity. }
  rewrite Hmark, Hsplit. cbn [item lookup list_lookup]. run_binds.
  assert (Hcolon : has_char ":" (hs +:+ ":" +:+ mm +:+ " " +:+ ap) = true).
  { change (hs +:+ ":" +:+ mm +:+ " " +:+ ap)
      with (hs +:+ String ":" (mm +:+ String " " ap)).
    rewrite has_char_app. cbn [has_char]. rewrite Ascii.eqb_refl.
    apply orb_true_r. }
  rewrite Hcolon. cbn [negb].
  change (hs +:+ ":" +:+ mm) with (hs +:+ String ":" mm).
  rewrite (split_app ":" hs mm Hhc), (split_no_sep ":" mm Hmc).
  cbn [unpack2]. run_binds. reflexivity.
Qed.

Lemma convert_24h_to_minutes_parts (hs ms : string) :
  has_char ":" hs = false -> has_char ":" ms = false ->
  convert_24h_to_minutes (hs +:+ ":" +:+ ms) =
    h ← int hs;
    if 24 <? h then Raise InvalidTime
    else
      h ← int hs;
      m ← int ms;
      Ok (h * 60 + m).
Proof.
  intros Hh Hm. unfold convert_24h_to_minutes.
  change (hs +:+ ":" +:+ ms) with (hs +:+ String ":" ms).
  rewrite has_char_app. cbn [has_char]. rewrite Ascii.eqb_refl, orb_true_r. cbn [negb orb].
  rewrite (split_app ":" hs ms Hh), (split_no_sep ":" ms Hm).
  cbn [unpack2]. run_binds. reflexivity.
Qed.

(** *** Well-formed clock strings *)

Lemma convert_12h_to_24h_wellformed (h : Z) (mm : string) (pm : bool) :
  1 <= h <= 12 ->
  has_char " " mm = false -> has_char ":" mm = false ->
  convert_12h_to_24h (str h +:+ ":" +:+ mm +:+ " " +:+ marker pm) =
    Ok (fmt02 (hour24 h pm) +:+ ":" +:+ mm).
Proof.
  intros Hh Hms Hmc.
  assert (Hcases : h = 1 \/ h = 2 \/ h = 3 \/ h = 4 \/ h = 5 \/ h = 6 \/
                   h = 7 \/ h = 8 \/ h = 9 \/ h = 10 \/ h = 11 \/ h = 12) by lia.
  assert (Hap : forall b, marker b = "AM"%string \/ marker b = "PM"%string)
    by (intros []; auto).
  repeat (destruct Hcases as [->|Hcases]);
    [..|subst h];
    destruct pm;
    match goal with
    | |- convert_12h_to_24h (?hs +:+ _ +:+ _ +:+ _ +:+ ?ap) = _ =>
        rewrite (convert_12h_to_24h_parts hs mm ap)
          by first [assumption | reflexivity | apply Hap]
    end;
    vm_compute; reflexivity.
Qed.

(** X14. A clock string made of an hour from 1 to 12 written without a
    leading zero, a colon, minutes, a space and AM or PM converts to the
    two-digit hour of the day, a colon and the same minutes: 12 AM is hour
    0, 12 PM is hour 12, and the minutes are copied as they are. *)
Theorem convert_12h_to_24h_clock (h : Z) (mm : string) (pm : bool) :
  1 <= h <= 12 ->
  has_char " " mm = false -> has_char ":" mm = false ->
  convert_12h_to_24h (str h +:+ ":" +:+ mm +:+ " " +:+ marker pm) =
    Ok (fmt02 (hour24 h pm) +:+ ":" +:+ mm).
Proof. apply convert_12h_to_24h_wellformed. Qed.

Lemma convert_12h_to_24h_clock_witness :
  convert_12h_to_24h "1:00 PM" = Ok "13:00"%string /\
  convert_12h_to_24h "12:30 AM" = Ok "00:30"%string /\
  convert_12h_to_24h "12:99 PM" = Ok "12:99"%string.
Proof.
  split; [|split].
  - apply (convert_12h_to_24h_clock 1 "00" true); [lia | reflexivity | reflexivity].
  - apply (convert_12h_to_24h_clock 12 "30" false); [lia | reflexivity | reflexivity].
  - apply (convert_12h_to_24h_clock 12 "99" true); [lia | reflexivity | reflexivity].
Defined.

(** X15. An hour below ten that is written with a leading zero comes out
    with one zero more in the morning, three characters where two are
    promised; in the afternoon it comes out right. *)
Theorem convert_12h_to_24h_padded (h : Z) (mm : string) :
  0 <= h <= 9 ->
  has_char " " mm = false -> has_char ":" mm = false ->
  convert_12h_to_24h (("0" +:+ str h) +:+ ":" +:+ mm +:+ " " +:+ "AM") =
    Ok (("00" +:+ str h) +:+ ":" +:+ mm) /\
  convert_12h_to_24h (("0" +:+ str h) +:+ ":" +:+ mm +:+ " " +:+ "PM") =
    Ok (str (h + 12) +:+ ":" +:+ mm).
Proof.
  intros Hh Hms Hmc.
  assert (Hcases : h = 0 \/ h = 1 \/ h = 2 \/ h = 3 \/ h = 4 \/ h = 5 \/
                   h = 6 \/ h = 7 \/ h = 8 \/ h = 9) by lia.
  repeat (destruct Hcases as [->|Hcases]); [..|subst h];
    (split;
     [rewrite (convert_12h_to_24h_parts ("0" +:+ str _) mm "AM")
        by first [assumption | reflexivity | now left]
     |rewrite (convert_12h_to_24h_parts ("0" +:+ str _) mm "PM")
        by first [assumption | reflexivity | now right]];
     vm_compute; reflexivity).
Qed.

Lemma convert_12h_to_24h_padded_witness :
  convert_12h_to_24h "08:00 AM" = Ok "008:00"%string /\
  convert_12h_to_24h "08:00 PM" = Ok "20:00"%string.
Proof. apply (convert_12h_to_24h_padded 8 "00"); [lia | reflexivity | reflexivity]. Defined.

(** *** Malformed clock strings *)

(** X16. A string with neither AM nor PM in it is refused with
    [InvalidTime]; one with a marker but no space ends in [IndexError]; one
    with a marker and a space but no colon is refused with
    [InvalidTime]. *)
Theorem convert_12h_to_24h_malformed (hours12 : string) :
  (contains "AM" hours12 || contains "PM" hours12 = false ->
   convert_12h_to_24h hours12 = Raise InvalidTime) /\
  (contains "AM" hours12 || contains "PM" hours12 = true ->
   has_char " " hours12 = false ->
   convert_12h_to_24h hours12 = Raise IndexError) /\
  (contains "AM" hours12 || contains "PM" hours12 = true ->
   has_char " " hours12 = true ->
   has_char ":" hours12 = false ->
   convert_12h_to_24h hours12 = Raise InvalidTime).
Proof.
  unfold convert_12h_to_24h. split; [|split].
  - intros ->. reflexivity.
  - intros -> Hspace. rewrite (split_no_sep " " hours12 Hspace). reflexivity.
  - intros -> Hspace Hcolon.
    destruct (split_has_char " " hours12 Hspace) as (a & b & rest & ->).
    cbn [item lookup list_lookup]. run_binds. rewrite Hcolon. reflexivity.
Qed.

Lemma convert_12h_to_24h_malformed_witness :
  convert_12h_to_24h "13:00" = Raise InvalidTime /\
  convert_12h_to_24h "1:00PM" = Raise IndexError /\
  convert_12h_to_24h "1 PM" = Raise InvalidTime.
Proof.
  split; [|split].
  - apply (proj1 (convert_12h_to_24h_malformed "13:00")). reflexivity.
  - apply (proj1 (proj2 (convert_12h_to_24h_malformed "1:00PM"))); reflexivity.
  - apply (proj2 (proj2 (convert_12h_to_24h_malformed "1 PM"))); reflexivity.
Defined.

(** X17. In a clock string of hours, colon, minutes, space and marker,
    hours above 12 are refused with [InvalidTime], and hours that [int]
    does not read end in [ValueError]. *)
Theorem convert_12h_to_24h_hours (hs mm ap : string) :
  has_char " " hs = false -> has_char ":" hs = false ->
  has_char " " mm = false -> has_char ":" mm = false ->
  ap = "AM"%string \/ ap = "PM"%string ->
  (forall h, int hs = Ok h -> 12 < h ->
   convert_12h_to_24h (hs +:+ ":" +:+ mm +:+ " " +:+ ap) = Raise InvalidTime) /\
  (int hs = Raise ValueError ->
   convert_12h_to_24h (hs +:+ ":" +:+ mm +:+ " " +:+ ap) = Raise ValueError).
Proof.
  intros Hhs Hhc Hms Hmc Hap.
  rewrite (convert_12h_to_24h_parts hs mm ap Hhs Hhc Hms Hmc Hap). split.
  - intros h -> Hh. run_binds. apply Z.ltb_lt in Hh. now rewrite Hh.
  - intros ->. reflexivity.
Qed.

Lemma convert_12h_to_24h_hours_witness :
  convert_12h_to_24h "13:00 PM" = Raise InvalidTime /\
  convert_12h_to_24h "noon:00 AM" = Raise ValueError.
Proof.
  split.
  - apply (proj1 (convert_12h_to_24h_hours "13" "00" "PM" eq_refl eq_refl eq_refl eq_refl
                      (or_intror eq_refl)) 13); [reflexivity | lia].
  - apply (proj2 (convert_12h_to_24h_hours "noon" "00" "AM" eq_refl eq_refl eq_refl eq_refl
                      (or_introl eq_refl))). reflexivity.
Defined.

(** *** Minutes since midnight *)

(** X18. For hours and minutes that [int] reads, joined by the one colon
    of the string, [convert_24h_to_minutes] gives sixty times the hours
    plus the minutes when the hours are at most 24, and refuses larger
    hours with [InvalidTime]; the minutes are not checked. *)
Theorem convert_24h_to_minutes_value (hs ms : string) (h m : Z) :
  has_char ":" hs = false -> has_char ":" ms = false ->
  int hs = Ok h -> int ms = Ok m ->
  convert_24h_to_minutes (hs +:+ ":" +:+ ms) =
    if 24 <? h then Raise InvalidTime else Ok (h * 60 + m).
Proof.
  intros Hh Hm Hhs Hms. rewrite (convert_24h_to_minutes_parts hs ms Hh Hm).
  rewrite Hhs. run_binds. destruct (24 <? h); [reflexivity|].
  run_binds. rewrite Hms. reflexivity.
Qed.

Lemma convert_24h_to_minutes_value_witness :
  convert_24h_to_minutes "13:05" = Ok 785 /\
  convert_24h_to_minutes "24:99" = Ok 1539 /\
  convert_24h_to_minutes "25:00" = Raise InvalidTime.
Proof.
  split; [|split].
  - exact (convert_24h_to_minutes_value "13" "05" 13 5 eq_refl eq_refl eq_refl eq_refl).
  - exact (convert_24h_to_minutes_value "24" "99" 24 99 eq_refl eq_refl eq_refl eq_refl).
  - exact (convert_24h_to_minutes_value "25" "00" 25 0 eq_refl eq_refl eq_refl eq_refl).
Defined.

Lemma has_char_count (c : ascii) (s : string) :
  has_char c s = false <-> count_char c s = O.
Proof.
  induction s as [|x s IH]; [tauto|]. cbn [has_char count_char].
  destruct (Ascii.eqb x c); cbn [orb]; [split; [discriminate | lia]|].
  rewrite IH. cbn. tauto.
Qed.

Lemma split_length (c : ascii) (s : string) :
  length (split c s) = S (count_char c s).
Proof.
  induction s as [|x s IH]; [reflexivity|]. cbn [split count_char].
  destruct (Ascii.eqb x c); cbn [length]; [now rewrite IH|].
  destruct (split c s) as [|piece pieces]; cbn [length] in *; lia.
Qed.

Lemma unpack2_length (l : list string) :
  length l <> 2%nat -> unpack2 l = Raise ValueError.
Proof. destruct l as [|a [|b [|? ?]]]; cbn; intros H; try reflexivity. now contradict H. Qed.

(** X19. A string without a colon is refused with [InvalidTime], and one
    with two colons or more, such as a time with seconds, ends in
    [ValueError]. *)
Theorem convert_24h_to_minutes_malformed (hours24 : string) :
  (count_char ":" hours24 = 0%nat -> convert_24h_to_minutes hours24 = Raise InvalidTime) /\
  ((2 <= count_char ":" hours24)%nat -> convert_24h_to_minutes hours24 = Raise ValueError).
Proof.
  unfold convert_24h_to_minutes. split.
  - intros H. apply has_char_count in H. now rewrite H.
  - intros H. destruct (has_char ":" hours24) eqn:E.
    + cbn [negb]. rewrite unpack2_length; [reflexivity|]. rewrite split_length. lia.
    + apply has_char_count in E. lia.
Qed.

Lemma convert_24h_to_minutes_malformed_witness :
  convert_24h_to_minutes "1300" = Raise InvalidTime /\
  convert_24h_to_minutes "12:30:00" = Raise ValueError.
Proof.
  split.
  - apply (proj1 (convert_24h_to_minutes_malformed "1300")). reflexivity.
  - apply (proj2 (convert_24h_to_minutes_malformed "12:30:00")). cbn. lia.
Defined.

(** *** From clock string to minutes *)

Lemma two_digits (x : Z) :
  0 <= x < 100 ->
  has_char ":" (fmt02 x) = false /\ has_char " " (fmt02 x) = false /\ int (fmt02 x) = Ok x.
Proof.
  intros Hx.
  assert (H : forallb two_digits_ok (seq 0 100) = true) by (vm_compute; reflexivity).
  rewrite forallb_forall in H. specialize (H (Z.to_nat x)).
  unfold two_digits_ok in H. rewrite Z2Nat.id in H by lia.
  assert (Hin : In (Z.to_nat x) (seq 0 100)) by (apply in_seq; lia).
  apply H in Hin. apply andb_true_iff in Hin as [Hin Hint].
  apply andb_true_iff in Hin as [Hc Hs].
  apply negb_true_iff in Hc, Hs. repeat split; try assumption.
  destruct (int (fmt02 x)) as [v|e|]; try discriminate.
  apply Z.eqb_eq in Hint. now subst.
Qed.

(** X20. A well-formed clock string, with an hour from 1 to 12 and two
    digits of minutes below 60, taken through both converters gives the
    minutes since midnight. *)
Theorem clock_to_minutes (h m : Z) (pm : bool) :
  1 <= h <= 12 ->
  0 <= m <= 59 ->
  (hours24 ← convert_12h_to_24h (str h +:+ ":" +:+ fmt02 m +:+ " " +:+ marker pm);
   convert_24h_to_minutes hours24) = Ok (hour24 h pm * 60 + m).
Proof.
  intros Hh Hm.
  destruct (two_digits m) as (Hmc & Hms & Hmi); [lia|].
  assert (Hday : 0 <= hour24 h pm <= 23).
  { unfold hour24. pose proof (Z.mod_pos_bound h 12). destruct pm; lia. }
  destruct (two_digits (hour24 h pm)) as (Hhc & _ & Hhi); [lia|].
  rewrite (convert_12h_to_24h_wellformed h (fmt02 m) pm Hh Hms Hmc). run_binds.
  rewrite (convert_24h_to_minutes_parts _ _ Hhc Hmc), Hhi, Hmi. run_binds.
  assert (E : (24 <? hour24 h pm) = false) by (apply Z.ltb_ge; lia).
  rewrite E. reflexivity.
Qed.

Lemma clock_to_minutes_witness :
  (hours24 ← convert_12h_to_24h "3:35 PM"; convert_24h_to_minutes hours24) = Ok 935 /\
  (hours24 ← convert_12h_to_24h "12:05 AM"; convert_24h_to_minutes hours24) = Ok 5.
Proof.
  split.
  - apply (clock_to_minutes 3 35 true); lia.
  - apply (clock_to_minutes 12 5 false); lia.
Defined.

(** ** A loaded module on the days of the two unread variants *)

(** X21. After a successful load, a school day of the PTC or the Extended
    Homeroom variant has the empty schedule: at no time is there a current
    period, and [get_next_class] raises [StopIteration]. *)
Theorem loaded_unread_variant (to_time : string -> outcome time) (fs : handles) (g : Globals)
    (d : date) (t : time) (info : Info bool (option string)) (flag : bool) :
  load to_time fs = Ok g ->
  get_day_info g (PyDateTime d t) = Ok info ->
  school info = true ->
  schedule info = Some "PTC"%string \/ schedule info = Some "Extended Homeroom"%string ->
  get_bell_schedule g (PyDateTime d t) flag = Ok (Some []) /\
  get_current_class g (PyDateTime d t) = Ok None /\
  get_current_period g (PyDateTime d t) = Ok None /\
  get_next_class g (PyDateTime d t) flag = Raise StopIteration.
Proof.
  intros Hload Hinfo Hs Hvariant.
  apply load_Ok in Hload as (_ & _ & _ & _ & Hptc & Hext).
  destruct (get_day_info_Ok g _ info Hinfo) as (d' & row & Hd & Hrow & Hschool & Hsched).
  apply Hschool in Hs.
  assert (Hbell : forall b, get_bell_schedule g (PyDateTime d t) b = Ok (Some [])).
  { intros b. unfold get_bell_schedule.
    rewrite (get_bell_schedule_rec_in_session 1 g _ d' row b Hd Hrow Hs).
    destruct (schedule row =? "None")%string eqn:E; cbn [negb] in Hsched;
      [rewrite Hsched in Hvariant; destruct Hvariant; discriminate|].
    rewrite Hsched in Hvariant. unfold registry. rewrite Hptc, Hext.
    destruct Hvariant as [[= ->]|[= ->]]; reflexivity. }
  assert (Hcur : get_current_class g (PyDateTime d t) = Ok None)
    by apply (get_current_class_scheduled g d t [] (Hbell false)).
  split; [apply Hbell|]. split; [exact Hcur|]. split.
  - unfold get_current_period. now rewrite Hcur.
  - unfold get_next_class. now rewrite Hbell, Hcur.
Qed.

Lemma loaded_unread_variant_witness :
  load Sample.to_time Sample.files = Ok Cases.loaded /\
  get_current_period Cases.loaded (PyDateTime Sample.tue_12 (Sample.at_ 8 10)) = Ok None /\
  get_next_class Cases.loaded (PyDateTime Sample.tue_12 (Sample.at_ 8 10)) false
    = Raise StopIteration.
Proof.
  assert (E : load Sample.to_time Sample.files = Ok Cases.loaded) by (vm_compute; reflexivity).
  assert (Hinfo : get_day_info Cases.loaded (PyDateTime Sample.tue_12 (Sample.at_ 8 10))
                  = Ok (mkInfo true (Some "A1") (Some "PTC") None None)%string)
    by (vm_compute; reflexivity).
  destruct (loaded_unread_variant Sample.to_time Sample.files Cases.loaded Sample.tue_12
              (Sample.at_ 8 10) _ false E Hinfo eq_refl (or_introl eq_refl))
    as (_ & _ & Hp & Hn).
  split; [exact E|]. split; assumption.
Defined.
